(** * The Standard VTOL transition manager (src/modules/vtol_att_control/standard.cpp)

    A shallow embedding of [Standard::update_vtol_state],
    [Standard::update_transition_state], [Standard::fill_actuator_outputs]
    and the small hooks around them, followed by the properties of the
    flight-mode scheduler, of the transition schedules and of the actuator
    mixer.

    The member variables of the C++ object are the fields of the record
    [Standard]; every member function is a function from the object before
    the call to the object after it.  The uORB topics the object reads and
    the values returned by the helpers of the base class [VtolType] during
    one call are gathered in the record [Inputs].

    Single-precision arithmetic is an interface ([FloatOps]).  The
    definitions and the statements about control flow are generic in it.
    Its implementation is IEEE-754 binary32 with round-to-nearest-even (on
    [spec_float]); the concrete runs are evaluated on it and the statements
    that depend on rounding are made about it. *)

From Stdlib Require Import ZArith Bool List Lia.
From Stdlib Require Import Floats.SpecFloat.
Import ListNotations.

Local Open Scope Z_scope.

(* ================================================================== *)
(** * Single-precision numbers                                          *)
(* ================================================================== *)

(** The operations of C's [float] that the file uses.  [flt] and [fle] are
    [<] and [<=]; [a > b] is [flt b a] and [a >= b] is [fle b a].  Every
    comparison with a NaN is false. *)
Class FloatOps : Type := {
  float : Type;
  of_Z : Z -> float;                       (* (float) n *)
  fadd : float -> float -> float;
  fsub : float -> float -> float;
  fmul : float -> float -> float;
  fdiv : float -> float -> float;
  fneg : float -> float;
  fabsf : float -> float;
  flt : float -> float -> bool;
  fle : float -> float -> bool;
  PX4_ISFINITE : float -> bool;
  fis_zero : float -> bool
}.

(** The comparison facts of IEEE-754 that some statements rely on. *)
Class FloatLaws (FO : FloatOps) : Prop := {
  flt_not_fle : forall a b : float, flt a b = true -> fle b a = false;
  fle_zero : forall d : float, fis_zero d = true -> fle d (of_Z 0) = true
}.

(* ================================================================== *)
(** * Enumerations                                                      *)
(* ================================================================== *)

(** [enum class vtol_mode] of the schedule and the coarse [enum class mode]
    published to the outer controller. *)
Module vtol_mode.
Inductive t : Set := MC_MODE | TRANSITION_TO_FW | TRANSITION_TO_MC | FW_MODE.
End vtol_mode.

Module mode.
Inductive t : Set := TRANSITION_TO_FW | TRANSITION_TO_MC | ROTARY_WING | FIXED_WING.
End mode.

Inductive QuadchuteReason : Set := TransitionTimeout.

(** The places of [update_transition_state] that divide. *)
Inductive DivSite : Set :=
| FrontPusherRamp      (* target * t / VT_PSHER_RMP_DT *)
| FrontBlendMargin     (* |airspeed - blend| / margin *)
| FrontMinimumTime     (* t / getMinimumFrontTransitionTime() *)
| BackReverseRamp      (* (t - VT_B_REV_DEL) / VT_PSHER_RMP_DT *)
| BackWeightRamp.      (* t / VT_B_TRANS_RAMP *)

Section Model.

Context {FO : FloatOps}.

Definition fgt (a b : float) : bool := flt b a.
Definition fge (a b : float) : bool := fle b a.

Definition f0 : float := of_Z 0.                         (* 0.0f *)
Definition f1 : float := of_Z 1.                         (* 1.0f *)
Definition f2 : float := of_Z 2.                         (* 2.0f *)
Definition f1e_6 : float := fdiv (of_Z 1) (of_Z 1000000). (* 1e-6f *)
(** The literal [n / d], one division of two converted integers. *)
Definition ratio (n d : Z) : float := fdiv (of_Z n) (of_Z d).
(** [FLT_EPSILON] of <float.h>: 2^-23. *)
Definition FLT_EPSILON : float := fdiv (of_Z 1) (of_Z 8388608).
(** The single-precision value of pi, 13176795 * 2^-22. *)
Definition M_PI_F : float := fdiv (of_Z 13176795) (of_Z 4194304).

(** Modelled from the spec: [math::constrain] (mathlib, not among the
    sources) is the spec's clamp of a value to the interval [lo, hi]. *)
Definition constrain (val lo hi : float) : float :=
  if flt val lo then lo else if fgt val hi then hi else val.

(** Modelled from the spec: [math::min] (mathlib, not among the sources),
    the smaller of two values. *)
Definition fmin (a b : float) : float := if flt a b then a else b.

(** Modelled from the spec: [math::radians] (mathlib, not among the
    sources) converts degrees to radians. *)
Definition radians (deg : float) : float :=
  fmul deg (fdiv M_PI_F (of_Z 180)).

(** [hrt_abstime] is an unsigned 64-bit count of microseconds. *)
Definition u64 (z : Z) : Z := z mod 2 ^ 64.
Definition one_second : Z := 1000000.                    (* 1_s *)

(* ================================================================== *)
(** * Data                                                              *)
(* ================================================================== *)

Record Vector3f : Type := mkVector3f { v0 : float; v1 : float; v2 : float }.
Record Quatf : Type := mkQuatf { qw : float; qx : float; qy : float; qz : float }.
Record Dcmf : Type := mkDcmf { row0 : Vector3f; row1 : Vector3f; row2 : Vector3f }.

(** The parts of PX4 that the file calls and that are not among the
    sources: the matrix library, the slew-rate limiter and the constants of
    the landing-gear message. *)
Class Px4Lib : Type := {
  Quatf_inversed : Quatf -> Quatf;                 (* Quatf::inversed() *)
  Dcmf_of_Quatf : Quatf -> Dcmf;                   (* Dcmf(const Quatf &) *)
  Dcmf_mul : Dcmf -> Vector3f -> Vector3f;         (* Dcmf * Vector3f *)
  Quatf_of_Eulerf : float -> float -> float -> Quatf; (* Quatf(Eulerf(r, p, y)) *)
  SlewRate : Type;
  SlewRate_update : SlewRate -> float -> float -> SlewRate;
  SlewRate_getState : SlewRate -> float;
  GEAR_UP : float;                                 (* landing_gear_s::GEAR_UP *)
  GEAR_DOWN : float                                (* landing_gear_s::GEAR_DOWN *)
}.

Context {LIB : Px4Lib}.

(** [vehicle_attitude_setpoint_s], with the fields the file touches. *)
Record vehicle_attitude_setpoint_s : Type := mkAttSp {
  sp_timestamp : Z;
  roll_body : float;
  pitch_body : float;
  yaw_body : float;
  q_d : Quatf;
  thrust_body : Vector3f
}.

(** The eight channels of [actuator_controls_s::control], named by their
    index constants. *)
Record controls : Type := mkControls {
  INDEX_ROLL : float;
  INDEX_PITCH : float;
  INDEX_YAW : float;
  INDEX_THROTTLE : float;
  INDEX_FLAPS : float;
  INDEX_SPOILERS : float;
  INDEX_AIRBRAKES : float;
  INDEX_LANDING_GEAR : float
}.

Record actuator_controls_s : Type := mkActuatorControls {
  ac_timestamp : Z;
  ac_timestamp_sample : Z;
  control : controls
}.

(** [vehicle_torque_setpoint_s] and [vehicle_thrust_setpoint_s]. *)
Record vehicle_setpoint_s : Type := mkSetpoint {
  s_timestamp : Z;
  s_timestamp_sample : Z;
  xyz : Vector3f
}.

(** The parameters read through [_param_*.get()]. *)
Record Params : Type := mkParams {
  vt_f_trans_thr : float;
  vt_psher_rmp_dt : float;
  vt_arsp_trans : float;
  vt_arsp_blend : float;
  vt_trans_timeout : float;
  vt_b_trans_dur : float;
  vt_b_trans_ramp : float;
  vt_b_trans_thr : float;
  vt_b_rev_del : float;
  vt_b_rev_out : float;
  vt_elev_mc_lock : bool;
  fw_arsp_mode : Z;
  fw_psp_off : float;
  mpc_xy_cruise : float
}.

(** What one call reads from outside the object: the clock, the topics it
    subscribes to, and what the helpers of [VtolAttitudeControl] and of
    the base class [VtolType] return.  [hrt_absolute_time] is the first
    reading of the clock in the call; [hrt_absolute_time_again k] is the
    reading [k + 1] readings later, for the mixer, which stamps its records
    one reading after the other. *)
Record Inputs : Type := mkInputs {
  hrt_absolute_time : Z;
  is_fixed_wing_requested : bool;
  can_transition_on_ground : bool;
  getMinimumFrontTransitionTime : float;
  update_and_get_backtransition_pitch_sp : float;
  pusher_assist : float;
  v_xy_valid : bool;
  vx : float;
  vy : float;
  vz : float;
  v_att_q : Quatf;
  calibrated_airspeed_m_s : float;
  flag_control_climb_rate_enabled : bool;
  mc_virtual_att_sp : vehicle_attitude_setpoint_s;
  fw_virtual_att_sp : vehicle_attitude_setpoint_s;
  actuators_mc_in : actuator_controls_s;
  actuators_fw_in : actuator_controls_s;
  dt : float;
  hrt_absolute_time_again : nat -> Z
}.

(** The members of the object.  [quadchute] collects the calls of
    [_attc->quadchute(reason)].  [divisions] is not a member: it records,
    latest first, the divisor of every floating-point division the object
    has executed and the place that executed it. *)
Record Standard : Type := mkStandard {
  flight_mode : vtol_mode.t;             (* _vtol_schedule.flight_mode *)
  transition_start : Z;                  (* _vtol_schedule.transition_start *)
  mc_roll_weight : float;
  mc_pitch_weight : float;
  mc_yaw_weight : float;
  mc_throttle_weight : float;
  pusher_throttle : float;
  reverse_output : float;
  vtol_transition_failsafe : bool;       (* _vtol_vehicle_status->... *)
  trans_finished_ts : Z;
  vtol_mode_ : mode.t;                   (* _vtol_mode *)
  airspeed_trans_blend_margin : float;
  v_att_sp : vehicle_attitude_setpoint_s;
  flaps_setpoint_with_slewrate : SlewRate;
  spoiler_setpoint_with_slewrate : SlewRate;
  quadchute : list QuadchuteReason;
  divisions : list (DivSite * float)
}.

(** The topics the mixer publishes. *)
Record Outputs : Type := mkOutputs {
  actuators_out_0 : actuator_controls_s;
  actuators_out_1 : actuator_controls_s;
  torque_setpoint_0 : vehicle_setpoint_s;
  torque_setpoint_1 : vehicle_setpoint_s;
  thrust_setpoint_0 : vehicle_setpoint_s;
  thrust_setpoint_1 : vehicle_setpoint_s
}.

(** ** Assignments to one member *)

Definition set_flight_mode (v : vtol_mode.t) (s : Standard) : Standard :=
  let '(mkStandard _ b c d e f g h i j k l m n o p q) := s in
  mkStandard v b c d e f g h i j k l m n o p q.
Definition set_transition_start (v : Z) (s : Standard) : Standard :=
  let '(mkStandard a _ c d e f g h i j k l m n o p q) := s in
  mkStandard a v c d e f g h i j k l m n o p q.
Definition set_mc_roll_weight (v : float) (s : Standard) : Standard :=
  let '(mkStandard a b _ d e f g h i j k l m n o p q) := s in
  mkStandard a b v d e f g h i j k l m n o p q.
Definition set_mc_pitch_weight (v : float) (s : Standard) : Standard :=
  let '(mkStandard a b c _ e f g h i j k l m n o p q) := s in
  mkStandard a b c v e f g h i j k l m n o p q.
Definition set_mc_yaw_weight (v : float) (s : Standard) : Standard :=
  let '(mkStandard a b c d _ f g h i j k l m n o p q) := s in
  mkStandard a b c d v f g h i j k l m n o p q.
Definition set_mc_throttle_weight (v : float) (s : Standard) : Standard :=
  let '(mkStandard a b c d e _ g h i j k l m n o p q) := s in
  mkStandard a b c d e v g h i j k l m n o p q.
Definition set_pusher_throttle (v : float) (s : Standard) : Standard :=
  let '(mkStandard a b c d e f _ h i j k l m n o p q) := s in
  mkStandard a b c d e f v h i j k l m n o p q.
Definition set_reverse_output (v : float) (s : Standard) : Standard :=
  let '(mkStandard a b c d e f g _ i j k l m n o p q) := s in
  mkStandard a b c d e f g v i j k l m n o p q.
Definition set_vtol_transition_failsafe (v : bool) (s : Standard) : Standard :=
  let '(mkStandard a b c d e f g h _ j k l m n o p q) := s in
  mkStandard a b c d e f g h v j k l m n o p q.
Definition set_trans_finished_ts (v : Z) (s : Standard) : Standard :=
  let '(mkStandard a b c d e f g h i _ k l m n o p q) := s in
  mkStandard a b c d e f g h i v k l m n o p q.
Definition set_vtol_mode (v : mode.t) (s : Standard) : Standard :=
  let '(mkStandard a b c d e f g h i j _ l m n o p q) := s in
  mkStandard a b c d e f g h i j v l m n o p q.
Definition set_airspeed_trans_blend_margin (v : float) (s : Standard) : Standard :=
  let '(mkStandard a b c d e f g h i j k _ m n o p q) := s in
  mkStandard a b c d e f g h i j k v m n o p q.
Definition set_v_att_sp (v : vehicle_attitude_setpoint_s) (s : Standard) : Standard :=
  let '(mkStandard a b c d e f g h i j k l _ n o p q) := s in
  mkStandard a b c d e f g h i j k l v n o p q.
Definition set_flaps_setpoint_with_slewrate (v : SlewRate) (s : Standard) : Standard :=
  let '(mkStandard a b c d e f g h i j k l m _ o p q) := s in
  mkStandard a b c d e f g h i j k l m v o p q.
Definition set_spoiler_setpoint_with_slewrate (v : SlewRate) (s : Standard) : Standard :=
  let '(mkStandard a b c d e f g h i j k l m n _ p q) := s in
  mkStandard a b c d e f g h i j k l m n v p q.
Definition set_quadchute (v : list QuadchuteReason) (s : Standard) : Standard :=
  let '(mkStandard a b c d e f g h i j k l m n o _ q) := s in
  mkStandard a b c d e f g h i j k l m n o v q.
Definition set_divisions (v : list (DivSite * float)) (s : Standard) : Standard :=
  let '(mkStandard a b c d e f g h i j k l m n o p _) := s in
  mkStandard a b c d e f g h i j k l m n o p v.

Definition set_roll_body (v : float) (a : vehicle_attitude_setpoint_s) :=
  mkAttSp (sp_timestamp a) v (pitch_body a) (yaw_body a) (q_d a) (thrust_body a).
Definition set_pitch_body (v : float) (a : vehicle_attitude_setpoint_s) :=
  mkAttSp (sp_timestamp a) (roll_body a) v (yaw_body a) (q_d a) (thrust_body a).
Definition set_q_d (v : Quatf) (a : vehicle_attitude_setpoint_s) :=
  mkAttSp (sp_timestamp a) (roll_body a) (pitch_body a) (yaw_body a) v (thrust_body a).
Definition set_thrust_body (v : Vector3f) (a : vehicle_attitude_setpoint_s) :=
  mkAttSp (sp_timestamp a) (roll_body a) (pitch_body a) (yaw_body a) (q_d a) v.

Definition set_vt_b_trans_ramp (v : float) (P : Params) : Params :=
  mkParams (vt_f_trans_thr P) (vt_psher_rmp_dt P) (vt_arsp_trans P)
    (vt_arsp_blend P) (vt_trans_timeout P) (vt_b_trans_dur P) v
    (vt_b_trans_thr P) (vt_b_rev_del P) (vt_b_rev_out P) (vt_elev_mc_lock P)
    (fw_arsp_mode P) (fw_psp_off P) (mpc_xy_cruise P).

(** A division at place [site]: the divisor is recorded, the quotient is
    the floating-point one. *)
Definition note_div (site : DivSite) (d : float) (s : Standard) : Standard :=
  set_divisions ((site, d) :: divisions s) s.

(* ================================================================== *)
(** * The member functions                                              *)
(* ================================================================== *)

(** [Standard::Standard]: what the constructor assigns; the other members
    keep the value their declaration gives them ([s0]). *)
Definition Standard_ctor (s0 : Standard) : Standard :=
  let s := set_flight_mode vtol_mode.MC_MODE s0 in
  let s := set_transition_start 0 s in
  let s := set_mc_roll_weight f1 s in
  let s := set_mc_pitch_weight f1 s in
  let s := set_mc_yaw_weight f1 s in
  set_mc_throttle_weight f1 s.

(** [Standard::parameters_update]. *)
Definition parameters_update (P : Params) : Params :=
  set_vt_b_trans_ramp (fmin (vt_b_trans_ramp P) (vt_b_trans_dur P)) P.

(** [(float)(hrt_absolute_time() - _vtol_schedule.transition_start) * 1e-6f] *)
Definition time_since_trans_start (I : Inputs) (s : Standard) : float :=
  fmul (of_Z (u64 (hrt_absolute_time I - transition_start s))) f1e_6.

(** The speed exit condition of the back transition (lines 118-127). *)
Definition exit_backtransition_speed_condition (P : Params) (I : Inputs) : bool :=
  if v_xy_valid I then
    let R_to_body := Dcmf_of_Quatf (Quatf_inversed (v_att_q I)) in
    let vel := Dcmf_mul R_to_body (mkVector3f (vx I) (vy I) (vz I)) in
    flt (v0 vel) (mpc_xy_cruise P)
  else if PX4_ISFINITE (calibrated_airspeed_m_s I) then
    flt (calibrated_airspeed_m_s I) (mpc_xy_cruise P)
  else false.

(** The completion test of the front transition (lines 153-168). *)
Definition transition_to_fw (P : Params) (I : Inputs) (s : Standard) : bool :=
  let airspeed_triggers_transition :=
    PX4_ISFINITE (calibrated_airspeed_m_s I) && (fw_arsp_mode P =? 0) in
  let minimum_trans_time_elapsed :=
    fgt (time_since_trans_start I s) (getMinimumFrontTransitionTime I) in
  let transition_to_fw :=
    if minimum_trans_time_elapsed then
      if airspeed_triggers_transition then
        fge (calibrated_airspeed_m_s I) (vt_arsp_trans P)
      else true
    else false in
  transition_to_fw || can_transition_on_ground I.

(** [Standard::update_vtol_state].  The first component of the pair that
    the branches return is the object, the second the local [mc_weight]. *)
Definition update_vtol_state (P : Params) (I : Inputs) (s : Standard) : Standard :=
  let mc_weight := mc_roll_weight s in
  let time_since_trans_start := time_since_trans_start I s in
  let '(s, mc_weight) :=
    if vtol_transition_failsafe s then
      let s := set_flight_mode vtol_mode.MC_MODE s in
      let s := set_pusher_throttle f0 s in
      let s := set_reverse_output f0 s in
      let s := if negb (is_fixed_wing_requested I)
               then set_vtol_transition_failsafe false s else s in
      (s, mc_weight)
    else if negb (is_fixed_wing_requested I) then
      match flight_mode s with
      | vtol_mode.MC_MODE =>
          let s := set_flight_mode vtol_mode.MC_MODE s in
          let s := set_reverse_output f0 s in
          (s, f1)
      | vtol_mode.FW_MODE =>
          let s := set_flight_mode vtol_mode.TRANSITION_TO_MC s in
          let s := set_transition_start (hrt_absolute_time I) s in
          let s := set_reverse_output (vt_b_rev_out P) s in
          (s, mc_weight)
      | vtol_mode.TRANSITION_TO_FW =>
          let s := set_flight_mode vtol_mode.MC_MODE s in
          let s := set_pusher_throttle f0 s in
          let s := set_reverse_output f0 s in
          (s, f1)
      | vtol_mode.TRANSITION_TO_MC =>
          let exit_backtransition_time_condition :=
            fgt time_since_trans_start (vt_b_trans_dur P) in
          if can_transition_on_ground I
             || exit_backtransition_speed_condition P I
             || exit_backtransition_time_condition
          then (set_flight_mode vtol_mode.MC_MODE s, mc_weight)
          else (s, mc_weight)
      end
    else
      match flight_mode s with
      | vtol_mode.MC_MODE | vtol_mode.TRANSITION_TO_MC =>
          let s := set_flight_mode vtol_mode.TRANSITION_TO_FW s in
          let s := set_transition_start (hrt_absolute_time I) s in
          (s, mc_weight)
      | vtol_mode.FW_MODE =>
          let s := set_flight_mode vtol_mode.FW_MODE s in
          (s, f0)
      | vtol_mode.TRANSITION_TO_FW =>
          if transition_to_fw P I s then
            let s := set_flight_mode vtol_mode.FW_MODE s in
            let s := set_trans_finished_ts (hrt_absolute_time I) s in
            (s, mc_weight)
          else (s, mc_weight)
      end in
  let s := set_mc_roll_weight mc_weight s in
  let s := set_mc_pitch_weight mc_weight s in
  let s := set_mc_yaw_weight mc_weight s in
  let s := set_mc_throttle_weight mc_weight s in
  match flight_mode s with
  | vtol_mode.MC_MODE => set_vtol_mode mode.ROTARY_WING s
  | vtol_mode.FW_MODE => set_vtol_mode mode.FIXED_WING s
  | vtol_mode.TRANSITION_TO_FW => set_vtol_mode mode.TRANSITION_TO_FW s
  | vtol_mode.TRANSITION_TO_MC => set_vtol_mode mode.TRANSITION_TO_MC s
  end.

(** The member functions of the base class that the file calls and whose
    bodies are not among the sources.  They act on the whole object. *)
Class VtolTypeBase : Type := {
  VtolType_update_transition_state : Inputs -> Standard -> Standard;
  VtolType_update_mc_state : Inputs -> Standard -> Standard;
  VtolType_update_fw_state : Inputs -> Standard -> Standard
}.

Context {BASE : VtolTypeBase}.

(** The spec gives the schedule, the weights, the pusher state and the
    attitude setpoint to this class alone: the generic transition update of
    the base class leaves them as they are.  (It may fire a quadchute, set
    the failsafe flag or move the slew-rate limiters.) *)
Definition base_transition_frame : Prop :=
  forall (I : Inputs) (s : Standard),
    let s' := VtolType_update_transition_state I s in
    flight_mode s' = flight_mode s /\
    transition_start s' = transition_start s /\
    mc_roll_weight s' = mc_roll_weight s /\
    mc_pitch_weight s' = mc_pitch_weight s /\
    mc_yaw_weight s' = mc_yaw_weight s /\
    mc_throttle_weight s' = mc_throttle_weight s /\
    pusher_throttle s' = pusher_throttle s /\
    reverse_output s' = reverse_output s /\
    v_att_sp s' = v_att_sp s /\
    divisions s' = divisions s.

(** [Quatf q_sp(Eulerf(roll_body, pitch_body, yaw_body)); q_sp.copyTo(q_d)] *)
Definition rebuild_q_d (a : vehicle_attitude_setpoint_s) : vehicle_attitude_setpoint_s :=
  set_q_d (Quatf_of_Eulerf (roll_body a) (pitch_body a) (yaw_body a)) a.

(** The pusher ramp of the front transition (lines 234-241). *)
Definition front_pusher_ramp (P : Params) (t : float) (s : Standard) : Standard :=
  if fle (vt_psher_rmp_dt P) f0 then
    set_pusher_throttle (vt_f_trans_thr P) s
  else if fle (pusher_throttle s) (vt_f_trans_thr P) then
    let s := note_div FrontPusherRamp (vt_psher_rmp_dt P) s in
    set_pusher_throttle
      (fdiv (fmul (vt_f_trans_thr P) t) (vt_psher_rmp_dt P)) s
  else s.

(** The blending of the front transition (lines 243-260): the object and
    the local [mc_weight] after it.  [t] is [time_since_trans_start]. *)
Definition front_blend (P : Params) (I : Inputs) (t : float) (s : Standard)
  : Standard * float :=
  let mc_weight := f1 in
  let s := set_airspeed_trans_blend_margin
             (fsub (vt_arsp_trans P) (vt_arsp_blend P)) s in
  if fgt (airspeed_trans_blend_margin s) f0
     && PX4_ISFINITE (calibrated_airspeed_m_s I)
     && fgt (calibrated_airspeed_m_s I) f0
     && fge (calibrated_airspeed_m_s I) (vt_arsp_blend P)
     && fgt t (getMinimumFrontTransitionTime I)
  then
    let margin := airspeed_trans_blend_margin s in
    let s := note_div FrontBlendMargin margin s in
    (s, fsub f1 (fdiv (fabsf (fsub (calibrated_airspeed_m_s I) (vt_arsp_blend P)))
                      margin))
  else if negb (fw_arsp_mode P =? 0)
          || negb (PX4_ISFINITE (calibrated_airspeed_m_s I))
  then
    let s := note_div FrontMinimumTime (getMinimumFrontTransitionTime I) s in
    let mc_weight := fsub f1 (fdiv t (getMinimumFrontTransitionTime I)) in
    (s, constrain (fmul f2 mc_weight) f0 f1)
  else (s, mc_weight).

(** The branch [flight_mode == TRANSITION_TO_FW] (lines 233-278). *)
Definition front_transition (P : Params) (I : Inputs) (t : float) (s : Standard)
  : Standard * float :=
  let s := front_pusher_ramp P t s in
  let '(s, mc_weight) := front_blend P I t s in
  let s := set_v_att_sp
             (rebuild_q_d
                (set_pitch_body (fmul (radians (fw_psp_off P)) (fsub f1 mc_weight))
                                (v_att_sp s))) s in
  let s := if fgt (vt_trans_timeout P) FLT_EPSILON then
             if fgt t (vt_trans_timeout P)
             then set_quadchute (TransitionTimeout :: quadchute s) s
             else s
           else s in
  let s := set_flaps_setpoint_with_slewrate
             (SlewRate_update (flaps_setpoint_with_slewrate s) f0 (dt I)) s in
  let s := set_spoiler_setpoint_with_slewrate
             (SlewRate_update (spoiler_setpoint_with_slewrate s) f0 (dt I)) s in
  (s, mc_weight).

(** The reverse-thrust ramp of the back transition (lines 290-297). *)
Definition back_pusher_ramp (P : Params) (t : float) (s : Standard) : Standard :=
  let s := set_pusher_throttle f0 s in
  if fge t (vt_b_rev_del P) then
    let s := note_div BackReverseRamp (vt_psher_rmp_dt P) s in
    let thrscale := fdiv (fsub t (vt_b_rev_del P)) (vt_psher_rmp_dt P) in
    let thrscale := constrain thrscale f0 f1 in
    set_pusher_throttle (fmul thrscale (vt_b_trans_thr P)) s
  else s.

(** The branch [flight_mode == TRANSITION_TO_MC] (lines 280-303). *)
Definition back_transition (P : Params) (I : Inputs) (t : float) (s : Standard)
  : Standard * float :=
  let mc_weight := f1 in
  let s := if flag_control_climb_rate_enabled I then
             set_v_att_sp
               (set_pitch_body (update_and_get_backtransition_pitch_sp I)
                               (v_att_sp s)) s
           else s in
  let s := set_v_att_sp (rebuild_q_d (v_att_sp s)) s in
  let s := back_pusher_ramp P t s in
  if fgt (vt_b_trans_ramp P) FLT_EPSILON then
    let s := note_div BackWeightRamp (vt_b_trans_ramp P) s in
    (s, fdiv t (vt_b_trans_ramp P))
  else (s, mc_weight).

(** Lines 212-231: the attitude setpoint is taken from the virtual
    setpoints when they are recent; [None] is the early [return]. *)
Definition synthesise_att_sp (I : Inputs) (s : Standard) : option Standard :=
  let now := hrt_absolute_time I in
  if flag_control_climb_rate_enabled I then
    if (sp_timestamp (mc_virtual_att_sp I) <? u64 (now - one_second))
       || (sp_timestamp (fw_virtual_att_sp I) <? u64 (now - one_second))
    then None
    else
      Some (set_v_att_sp
              (set_roll_body (roll_body (fw_virtual_att_sp I))
                             (mc_virtual_att_sp I)) s)
  else
    if sp_timestamp (fw_virtual_att_sp I) <? u64 (now - one_second)
    then None
    else
      let fw := fw_virtual_att_sp I in
      Some (set_v_att_sp
              (set_thrust_body
                 (mkVector3f (v0 (thrust_body fw)) (v1 (thrust_body fw))
                             (fneg (v0 (thrust_body fw)))) fw) s).

(** Lines 233-310: the schedules of the two transitions, the final clamp
    and the four weights. *)
Definition transition_schedules (P : Params) (I : Inputs) (t : float) (s : Standard)
  : Standard :=
  let '(s, mc_weight) :=
    match flight_mode s with
    | vtol_mode.TRANSITION_TO_FW => front_transition P I t s
    | vtol_mode.TRANSITION_TO_MC => back_transition P I t s
    | _ => (s, f1)
    end in
  let mc_weight := constrain mc_weight f0 f1 in
  let s := set_mc_roll_weight mc_weight s in
  let s := set_mc_pitch_weight mc_weight s in
  let s := set_mc_yaw_weight mc_weight s in
  set_mc_throttle_weight mc_weight s.

(** [Standard::update_transition_state]. *)
Definition update_transition_state (P : Params) (I : Inputs) (s : Standard)
  : Standard :=
  let time_since_trans_start := time_since_trans_start I s in
  let s := VtolType_update_transition_state I s in
  match synthesise_att_sp I s with
  | None => s
  | Some s => transition_schedules P I time_since_trans_start s
  end.

(** [Standard::update_mc_state] and [Standard::update_fw_state]. *)
Definition update_mc_state (I : Inputs) (s : Standard) : Standard :=
  let s := VtolType_update_mc_state I s in
  set_pusher_throttle (pusher_assist I) s.

Definition update_fw_state (I : Inputs) (s : Standard) : Standard :=
  VtolType_update_fw_state I s.

(** [Standard::waiting_on_tecs] and
    [Standard::blendThrottleAfterFrontTransition]. *)
Definition waiting_on_tecs (s : Standard) : Standard :=
  let tb := thrust_body (v_att_sp s) in
  set_v_att_sp
    (set_thrust_body (mkVector3f (pusher_throttle s) (v1 tb) (v2 tb)) (v_att_sp s)) s.

Definition blendThrottleAfterFrontTransition (scale : float) (s : Standard) : Standard :=
  let tb := thrust_body (v_att_sp s) in
  let tecs_throttle := v0 tb in
  set_v_att_sp
    (set_thrust_body
       (mkVector3f (fadd (fmul scale tecs_throttle)
                         (fmul (fsub f1 scale) (pusher_throttle s)))
                   (v1 tb) (v2 tb)) (v_att_sp s)) s.

(** The two control vectors that [fill_actuator_outputs] writes in its
    [switch]: [mc_out] and [fw_out].  The channels a case does not assign
    keep their value. *)
Definition mix_mc_out (s : Standard) (mc_in mc_out : controls) : controls :=
  match flight_mode s with
  | vtol_mode.MC_MODE =>
      mkControls (INDEX_ROLL mc_in) (INDEX_PITCH mc_in) (INDEX_YAW mc_in)
        (INDEX_THROTTLE mc_in)
        (INDEX_FLAPS mc_out) (INDEX_SPOILERS mc_out) (INDEX_AIRBRAKES mc_out)
        GEAR_DOWN
  | vtol_mode.TRANSITION_TO_FW | vtol_mode.TRANSITION_TO_MC =>
      mkControls (fmul (INDEX_ROLL mc_in) (mc_roll_weight s))
        (fmul (INDEX_PITCH mc_in) (mc_pitch_weight s))
        (fmul (INDEX_YAW mc_in) (mc_yaw_weight s))
        (fmul (INDEX_THROTTLE mc_in) (mc_throttle_weight s))
        (INDEX_FLAPS mc_out) (INDEX_SPOILERS mc_out) (INDEX_AIRBRAKES mc_out)
        GEAR_UP
  | vtol_mode.FW_MODE =>
      mkControls f0 f0 f0 f0
        (INDEX_FLAPS mc_out) (INDEX_SPOILERS mc_out) (INDEX_AIRBRAKES mc_out)
        GEAR_UP
  end.

Definition mix_fw_out (P : Params) (s : Standard) (fw_in fw_out : controls) : controls :=
  let flaps := SlewRate_getState (flaps_setpoint_with_slewrate s) in
  let spoilers := SlewRate_getState (spoiler_setpoint_with_slewrate s) in
  match flight_mode s with
  | vtol_mode.MC_MODE =>
      mkControls (if vt_elev_mc_lock P then f0 else INDEX_ROLL fw_in)
        (if vt_elev_mc_lock P then f0 else INDEX_PITCH fw_in)
        f0 (pusher_throttle s) flaps spoilers f0
        (INDEX_LANDING_GEAR fw_out)
  | vtol_mode.TRANSITION_TO_FW | vtol_mode.TRANSITION_TO_MC =>
      mkControls (INDEX_ROLL fw_in) (INDEX_PITCH fw_in) (INDEX_YAW fw_in)
        (pusher_throttle s) flaps spoilers (reverse_output s)
        (INDEX_LANDING_GEAR fw_out)
  | vtol_mode.FW_MODE =>
      mkControls (INDEX_ROLL fw_in) (INDEX_PITCH fw_in) (INDEX_YAW fw_in)
        (INDEX_THROTTLE fw_in) flaps spoilers f0
        (INDEX_LANDING_GEAR fw_out)
  end.

(** [Standard::fill_actuator_outputs].  The clock is read once for each
    torque and thrust setpoint and once for the two control vectors. *)
Definition fill_actuator_outputs (P : Params) (I : Inputs) (s : Standard)
  (o : Outputs) : Outputs :=
  let mc_in := control (actuators_mc_in I) in
  let fw_in := control (actuators_fw_in I) in
  let mc_out := mix_mc_out s mc_in (control (actuators_out_0 o)) in
  let fw_out := mix_fw_out P s fw_in (control (actuators_out_1 o)) in
  let now_401 := hrt_absolute_time I in            (* line 401 *)
  let now_407 := hrt_absolute_time_again I 0 in    (* line 407 *)
  let now_413 := hrt_absolute_time_again I 1 in    (* line 413 *)
  let now_419 := hrt_absolute_time_again I 2 in    (* line 419 *)
  let now_428 := hrt_absolute_time_again I 3 in    (* line 428 *)
  let mc_sample := ac_timestamp_sample (actuators_mc_in I) in
  let fw_sample := ac_timestamp_sample (actuators_fw_in I) in
  mkOutputs
    (mkActuatorControls now_428 mc_sample mc_out)
    (mkActuatorControls now_428 fw_sample fw_out)
    (mkSetpoint now_401 mc_sample
       (mkVector3f (INDEX_ROLL mc_out) (INDEX_PITCH mc_out) (INDEX_YAW mc_out)))
    (mkSetpoint now_407 fw_sample
       (mkVector3f (INDEX_ROLL fw_out) (INDEX_PITCH fw_out) (INDEX_YAW fw_out)))
    (mkSetpoint now_413 mc_sample
       (mkVector3f (INDEX_THROTTLE fw_out) f0 (fneg (INDEX_THROTTLE mc_out))))
    (mkSetpoint now_419 fw_sample (mkVector3f f0 f0 f0)).

(* ================================================================== *)
(** * The spec's own wording of some behaviours                         *)
(* ================================================================== *)

(** The channels of the two control vectors that the mixer table of the
    spec speaks about. *)
Record mixer_channels : Type := mkMixer {
  mc_roll : float; mc_pitch : float; mc_yaw : float; mc_throttle : float;
  mc_gear : float;
  fw_roll : float; fw_pitch : float; fw_yaw : float; fw_throttle : float;
  fw_flaps : float; fw_spoilers : float; fw_airbrakes : float
}.

(** The mixer table of the spec, row by row, as a function of the
    arguments the spec lists. *)
Definition mixer_table (m : vtol_mode.t) (mc_in fw_in : controls)
  (w_roll w_pitch w_yaw w_throttle pusher reverse flaps spoilers : float)
  (elev_mc_lock : bool) : mixer_channels :=
  match m with
  | vtol_mode.MC_MODE =>
      mkMixer (INDEX_ROLL mc_in) (INDEX_PITCH mc_in) (INDEX_YAW mc_in)
        (INDEX_THROTTLE mc_in) GEAR_DOWN
        (if elev_mc_lock then f0 else INDEX_ROLL fw_in)
        (if elev_mc_lock then f0 else INDEX_PITCH fw_in)
        f0 pusher flaps spoilers f0
  | vtol_mode.TRANSITION_TO_FW | vtol_mode.TRANSITION_TO_MC =>
      mkMixer (fmul (INDEX_ROLL mc_in) w_roll) (fmul (INDEX_PITCH mc_in) w_pitch)
        (fmul (INDEX_YAW mc_in) w_yaw) (fmul (INDEX_THROTTLE mc_in) w_throttle)
        GEAR_UP
        (INDEX_ROLL fw_in) (INDEX_PITCH fw_in) (INDEX_YAW fw_in)
        pusher flaps spoilers reverse
  | vtol_mode.FW_MODE =>
      mkMixer f0 f0 f0 f0 GEAR_UP
        (INDEX_ROLL fw_in) (INDEX_PITCH fw_in) (INDEX_YAW fw_in)
        (INDEX_THROTTLE fw_in) flaps spoilers f0
  end.

(** The same channels, read from what the mixer published. *)
Definition published_channels (o : Outputs) : mixer_channels :=
  let mc := control (actuators_out_0 o) in
  let fw := control (actuators_out_1 o) in
  mkMixer (INDEX_ROLL mc) (INDEX_PITCH mc) (INDEX_YAW mc) (INDEX_THROTTLE mc)
    (INDEX_LANDING_GEAR mc)
    (INDEX_ROLL fw) (INDEX_PITCH fw) (INDEX_YAW fw) (INDEX_THROTTLE fw)
    (INDEX_FLAPS fw) (INDEX_SPOILERS fw) (INDEX_AIRBRAKES fw).

(** The completion condition of the front transition, in the spec's words. *)
Definition front_completion_condition (P : Params) (I : Inputs) (s : Standard) : bool :=
  let cas := calibrated_airspeed_m_s I in
  can_transition_on_ground I
  || (fgt (time_since_trans_start I s) (getMinimumFrontTransitionTime I)
      && ((PX4_ISFINITE cas && (fw_arsp_mode P =? 0) && fge cas (vt_arsp_trans P))
          || (negb (PX4_ISFINITE cas) || negb (fw_arsp_mode P =? 0)))).

(** The body-X component of the velocity rotated by the inverse of the
    attitude quaternion. *)
Definition body_x_velocity (I : Inputs) : float :=
  v0 (Dcmf_mul (Dcmf_of_Quatf (Quatf_inversed (v_att_q I)))
               (mkVector3f (vx I) (vy I) (vz I))).

(** The exit condition of the back transition, in the spec's words:
    ground, speed or time. *)
Definition back_exit_condition (P : Params) (I : Inputs) (s : Standard) : bool :=
  let speed :=
    if v_xy_valid I then flt (body_x_velocity I) (mpc_xy_cruise P)
    else if PX4_ISFINITE (calibrated_airspeed_m_s I)
         then flt (calibrated_airspeed_m_s I) (mpc_xy_cruise P)
         else false in
  can_transition_on_ground I
  || speed
  || fgt (time_since_trans_start I s) (vt_b_trans_dur P).

(** The reverse-thrust ramp of the back transition, in the spec's words:
    0 before VT_B_REV_DEL, then the clamped scale times VT_B_TRANS_THR. *)
Definition reverse_ramp_value (P : Params) (t : float) : float :=
  if fge t (vt_b_rev_del P)
  then fmul (constrain (fdiv (fsub t (vt_b_rev_del P)) (vt_psher_rmp_dt P)) f0 f1)
            (vt_b_trans_thr P)
  else f0.

(** The mc weight of the front transition before the final clamp.  With
    [positive_airspeed_guard] unset this is the schedule as the spec words
    it; with the guard set the first case also asks for a calibrated
    airspeed above zero. *)
Definition front_weight_schedule (positive_airspeed_guard : bool)
  (P : Params) (I : Inputs) (t : float) : float :=
  let cas := calibrated_airspeed_m_s I in
  let blend_margin := fsub (vt_arsp_trans P) (vt_arsp_blend P) in
  if fgt blend_margin f0 && PX4_ISFINITE cas
     && (if positive_airspeed_guard then fgt cas f0 else true)
     && fge cas (vt_arsp_blend P)
     && fgt t (getMinimumFrontTransitionTime I)
  then fsub f1 (fdiv (fabsf (fsub cas (vt_arsp_blend P))) blend_margin)
  else if negb (fw_arsp_mode P =? 0) || negb (PX4_ISFINITE cas)
  then constrain (fmul f2 (fsub f1 (fdiv t (getMinimumFrontTransitionTime I)))) f0 f1
  else f1.

(** The virtual attitude setpoints that the transition needs are older
    than one second: both when the climb rate is controlled, the
    fixed-wing one otherwise. *)
Definition virtual_setpoints_stale (I : Inputs) : bool :=
  let limit := u64 (hrt_absolute_time I - one_second) in
  if flag_control_climb_rate_enabled I
  then (sp_timestamp (mc_virtual_att_sp I) <? limit)
       || (sp_timestamp (fw_virtual_att_sp I) <? limit)
  else sp_timestamp (fw_virtual_att_sp I) <? limit.

Definition in_transition (s : Standard) : bool :=
  match flight_mode s with
  | vtol_mode.TRANSITION_TO_FW | vtol_mode.TRANSITION_TO_MC => true
  | _ => false
  end.

(** A division by zero was executed at place [site]. *)
Definition DivSite_eqb (a b : DivSite) : bool :=
  match a, b with
  | FrontPusherRamp, FrontPusherRamp
  | FrontBlendMargin, FrontBlendMargin
  | FrontMinimumTime, FrontMinimumTime
  | BackReverseRamp, BackReverseRamp
  | BackWeightRamp, BackWeightRamp => true
  | _, _ => false
  end.

Definition divides_by_zero_at (site : DivSite) (s : Standard) : bool :=
  existsb (fun e => DivSite_eqb (fst e) site && fis_zero (snd e)) (divisions s).

(** The front weight schedule as the spec words it, without the guard on
    a positive airspeed. *)
Definition front_weight_as_worded (P : Params) (I : Inputs) (s : Standard) : Prop :=
  flight_mode s = vtol_mode.TRANSITION_TO_FW ->
  virtual_setpoints_stale I = false ->
  let t := time_since_trans_start I s in
  snd (front_transition P I t s) = front_weight_schedule false P I t.

(** A stale call leaves the attitude setpoint while the schedules of the
    pusher throttle and of the mc weight still run: the object holds what
    the schedules compute on this call. *)
Definition stale_call_runs_schedules (P : Params) (I : Inputs) (s : Standard) : Prop :=
  virtual_setpoints_stale I = true ->
  in_transition s = true ->
  let s' := update_transition_state P I s in
  let r := transition_schedules P I (time_since_trans_start I s) s in
  v_att_sp s' = v_att_sp s /\
  pusher_throttle s' = pusher_throttle r /\
  mc_roll_weight s' = mc_roll_weight r /\
  mc_pitch_weight s' = mc_pitch_weight r /\
  mc_yaw_weight s' = mc_yaw_weight r /\
  mc_throttle_weight s' = mc_throttle_weight r.

(** Every call of the scheduler that ends in [FW_MODE] ends with the four
    weights at 0 and makes the mixer emit 0 on the MC group. *)
Definition fw_mode_zeroes_weights (P : Params) (I : Inputs) (s : Standard)
  (o : Outputs) : Prop :=
  flight_mode (update_vtol_state P I s) = vtol_mode.FW_MODE ->
  let s' := update_vtol_state P I s in
  let mc_out := control (actuators_out_0 (fill_actuator_outputs P I s' o)) in
  mc_roll_weight s' = f0 /\ mc_pitch_weight s' = f0 /\
  mc_yaw_weight s' = f0 /\ mc_throttle_weight s' = f0 /\
  INDEX_ROLL mc_out = f0 /\ INDEX_PITCH mc_out = f0 /\
  INDEX_YAW mc_out = f0 /\ INDEX_THROTTLE mc_out = f0.


(** Modelled from the spec: the order in which the scheduler
    (vtol_att_control_main.cpp, not among the sources) calls the member
    functions during one tick: mode scheduler, then the transition
    controller or the hover or cruise pass-through, then the mixer. *)
Definition tick (P : Params) (I : Inputs) (so : Standard * Outputs)
  : Standard * Outputs :=
  let s := update_vtol_state P I (fst so) in
  let s := match flight_mode s with
           | vtol_mode.MC_MODE => update_mc_state I s
           | vtol_mode.FW_MODE => update_fw_state I s
           | _ => update_transition_state P I s
           end in
  (s, fill_actuator_outputs P I s (snd so)).

End Model.

Arguments Px4Lib FO : clear implicits.
Arguments VtolTypeBase FO LIB : clear implicits.

(* ================================================================== *)
(** * Implementations of the interfaces                                 *)
(* ================================================================== *)

(** ** The library functions, over any arithmetic

    The matrix library by its usual formulas, the slew-rate limiter as a
    value that moves towards its target by at most [slew_rate * dt] per
    update, the landing-gear constants 1 and -1.  Sine and cosine are not
    available as single-precision functions here: the conversion from Euler
    angles uses their Taylor polynomials of degree five and four.  The
    statements below hold for every implementation of [Px4Lib]; this one
    serves to run the model on concrete inputs. *)
Section StdLib.

Context {FO : FloatOps}.

Definition std_Quatf_inversed (q : Quatf) : Quatf :=
  let normSq :=
    fadd (fadd (fadd (fmul (qw q) (qw q)) (fmul (qx q) (qx q)))
               (fmul (qy q) (qy q))) (fmul (qz q) (qz q)) in
  mkQuatf (fdiv (qw q) normSq) (fdiv (fneg (qx q)) normSq)
          (fdiv (fneg (qy q)) normSq) (fdiv (fneg (qz q)) normSq).

Definition std_Dcmf_of_Quatf (q : Quatf) : Dcmf :=
  let a := qw q in let b := qx q in let c := qy q in let d := qz q in
  let aa := fmul a a in let ab := fmul a b in let ac := fmul a c in
  let ad := fmul a d in let bb := fmul b b in let bc := fmul b c in
  let bd := fmul b d in let cc := fmul c c in let cd := fmul c d in
  let dd := fmul d d in
  mkDcmf
    (mkVector3f (fsub (fsub (fadd aa bb) cc) dd)
                (fmul f2 (fsub bc ad)) (fmul f2 (fadd ac bd)))
    (mkVector3f (fmul f2 (fadd bc ad))
                (fsub (fadd (fsub aa bb) cc) dd) (fmul f2 (fsub cd ab)))
    (mkVector3f (fmul f2 (fsub bd ac)) (fmul f2 (fadd ab cd))
                (fadd (fsub (fsub aa bb) cc) dd)).

Definition dot3 (r v : Vector3f) : float :=
  fadd (fadd (fmul (v0 r) (v0 v)) (fmul (v1 r) (v1 v))) (fmul (v2 r) (v2 v)).

Definition std_Dcmf_mul (m : Dcmf) (v : Vector3f) : Vector3f :=
  mkVector3f (dot3 (row0 m) v) (dot3 (row1 m) v) (dot3 (row2 m) v).

Definition taylor_sin (x : float) : float :=
  let x2 := fmul x x in
  fmul x (fadd (fsub f1 (fdiv x2 (of_Z 6))) (fdiv (fmul x2 x2) (of_Z 120))).

Definition taylor_cos (x : float) : float :=
  let x2 := fmul x x in
  fadd (fsub f1 (fdiv x2 f2)) (fdiv (fmul x2 x2) (of_Z 24)).

Definition std_Quatf_of_Eulerf (phi theta psi : float) : Quatf :=
  let cPhi := taylor_cos (fdiv phi f2) in
  let sPhi := taylor_sin (fdiv phi f2) in
  let cTheta := taylor_cos (fdiv theta f2) in
  let sTheta := taylor_sin (fdiv theta f2) in
  let cPsi := taylor_cos (fdiv psi f2) in
  let sPsi := taylor_sin (fdiv psi f2) in
  mkQuatf
    (fadd (fmul (fmul cPhi cTheta) cPsi) (fmul (fmul sPhi sTheta) sPsi))
    (fsub (fmul (fmul sPhi cTheta) cPsi) (fmul (fmul cPhi sTheta) sPsi))
    (fadd (fmul (fmul cPhi sTheta) cPsi) (fmul (fmul sPhi cTheta) sPsi))
    (fsub (fmul (fmul cPhi cTheta) sPsi) (fmul (fmul sPhi sTheta) cPsi)).

Record std_SlewRate : Type := mkSlewRate { slew_value : float; slew_rate : float }.

Definition std_SlewRate_update (r : std_SlewRate) (new_value deltatime : float)
  : std_SlewRate :=
  let dvalue_desired := fsub new_value (slew_value r) in
  let dvalue_max := fmul (slew_rate r) deltatime in
  let dvalue := constrain dvalue_desired (fneg dvalue_max) dvalue_max in
  mkSlewRate (fadd (slew_value r) dvalue) (slew_rate r).

#[local] Instance StdLib : Px4Lib FO := {|
  Quatf_inversed := std_Quatf_inversed;
  Dcmf_of_Quatf := std_Dcmf_of_Quatf;
  Dcmf_mul := std_Dcmf_mul;
  Quatf_of_Eulerf := std_Quatf_of_Eulerf;
  SlewRate := std_SlewRate;
  SlewRate_update := std_SlewRate_update;
  SlewRate_getState := slew_value;
  GEAR_UP := of_Z 1;
  GEAR_DOWN := of_Z (-1)
|}.

(** A base class whose three updates do nothing to the members modelled
    here. *)
#[local] Instance IdleBase : VtolTypeBase FO StdLib := {|
  VtolType_update_transition_state := fun _ s => s;
  VtolType_update_mc_state := fun _ s => s;
  VtolType_update_fw_state := fun _ s => s
|}.

End StdLib.

(** ** IEEE-754 binary32, round to nearest even *)
Module B32.

Definition prec : Z := 24.
Definition emax : Z := 128.

Definition is_finite (x : spec_float) : bool :=
  match x with
  | S754_zero _ | S754_finite _ _ _ => true
  | S754_infinity _ | S754_nan => false
  end.

Definition is_zero (x : spec_float) : bool :=
  match x with S754_zero _ => true | _ => false end.

#[local] Instance ops : FloatOps := {|
  float := spec_float;
  of_Z := fun z => binary_normalize prec emax z 0 false;
  fadd := SFadd prec emax;
  fsub := SFsub prec emax;
  fmul := SFmul prec emax;
  fdiv := SFdiv prec emax;
  fneg := SFopp;
  fabsf := SFabs;
  flt := SFltb;
  fle := SFleb;
  PX4_ISFINITE := is_finite;
  fis_zero := is_zero
|}.

(** A value that a binary32 variable can hold: its mantissa and exponent
    are the canonical ones. *)
Definition valid (x : spec_float) : bool := valid_binary prec emax x.

(** Equality of binary32 values as numbers ([==] of C). *)
Definition same_number (x y : spec_float) : bool := SFeqb x y.

End B32.

(* ================================================================== *)
(** * Concrete flights                                                  *)
(* ================================================================== *)

(** Parameters, inputs and objects on which the model is run, over any
    arithmetic, with the library [StdLib] and the base class [IdleBase].
    Times are in microseconds. *)
Section Scenarios.

Context {FO : FloatOps}.

#[local] Existing Instance StdLib.
#[local] Existing Instance IdleBase.

(** A level attitude setpoint with zero thrust, stamped [ts]. *)
Definition level_sp (ts : Z) : vehicle_attitude_setpoint_s :=
  mkAttSp ts f0 f0 f0 (mkQuatf f1 f0 f0 f0) (mkVector3f f0 f0 f0).

Definition neutral_controls : actuator_controls_s :=
  mkActuatorControls 0 0 (mkControls f0 f0 f0 f0 f0 f0 f0 f0).

(** VT_ARSP_TRANS = 20 m/s, VT_TRANS_TIMEOUT = 15 s, VT_B_TRANS_DUR = 8 s,
    VT_B_TRANS_RAMP = 3 s, VT_B_TRANS_THR = 0.5, VT_B_REV_DEL = 0.5 s,
    VT_B_REV_OUT = 0, VT_ELEV_MC_LOCK set, FW_PSP_OFF = 0,
    MPC_XY_CRUISE = 5 m/s; VT_F_TRANS_THR, VT_PSHER_RMP_DT, FW_ARSP_MODE
    and VT_ARSP_BLEND as given. *)
Definition flight_params (f_trans_thr psher_rmp_dt : float) (arsp_mode : Z)
  (arsp_blend : float) : Params :=
  mkParams f_trans_thr psher_rmp_dt (of_Z 20) arsp_blend (of_Z 15) (of_Z 8)
    (of_Z 3) (ratio 1 2) (ratio 1 2) f0 true arsp_mode f0 (of_Z 5).

(** The inputs of a call at time [now]: minimum front transition time 3 s,
    no valid ground velocity, climb rate controlled, both virtual setpoints
    stamped [sp_ts], 250 Hz, the clock one microsecond further at each
    later reading. *)
Definition flight_inputs (now : Z) (fw_requested on_ground : bool)
  (airspeed : float) (sp_ts : Z) : Inputs :=
  mkInputs now fw_requested on_ground (of_Z 3) f0 f0
    false f0 f0 f0 (mkQuatf f1 f0 f0 f0) airspeed true
    (level_sp sp_ts) (level_sp sp_ts) neutral_controls neutral_controls
    (ratio 1 250) (fun k => now + Z.of_nat (S k)).

(** The same with a valid ground velocity of [speed] m/s along a heading
    of zero, the vehicle level. *)
Definition flight_inputs_ground_speed (now : Z) (speed : float) : Inputs :=
  mkInputs now false false (of_Z 3) f0 f0
    true speed f0 f0 (mkQuatf f1 f0 f0 f0) (of_Z 20) true
    (level_sp now) (level_sp now) neutral_controls neutral_controls
    (ratio 1 250) (fun k => now + Z.of_nat (S k)).

(** An object in mode [m] whose transition started at [start], with the
    four weights at [w] and the pusher throttle at [pusher]. *)
Definition flight_object (m : vtol_mode.t) (start : Z) (w pusher : float)
  (failsafe : bool) : Standard :=
  mkStandard m start w w w w pusher f0 failsafe 0 mode.ROTARY_WING f0
    (level_sp 0) (mkSlewRate f0 f1) (mkSlewRate f0 f1) [] [].

Definition blank_outputs : Outputs :=
  mkOutputs neutral_controls neutral_controls
    (mkSetpoint 0 0 (mkVector3f f0 f0 f0)) (mkSetpoint 0 0 (mkVector3f f0 f0 f0))
    (mkSetpoint 0 0 (mkVector3f f0 f0 f0)) (mkSetpoint 0 0 (mkVector3f f0 f0 f0)).

(** A front transition with a trusted airspeed of 5 m/s: the pilot asks
    for fixed-wing flight at 10 s; the calls at 10 s, 11 s and 14 s find
    fresh virtual setpoints, the call at 12.5 s finds them 1.5 s old. *)
Definition hover : Standard * Outputs :=
  (Standard_ctor (flight_object vtol_mode.MC_MODE 0 f1 f0 false), blank_outputs).
Definition front_params : Params :=
  flight_params (ratio 3 4) (of_Z 2) 0 (of_Z 10).
Definition call_at_10s : Inputs := flight_inputs 10000000 true false (of_Z 5) 10000000.
Definition call_at_11s : Inputs := flight_inputs 11000000 true false (of_Z 5) 11000000.
Definition call_at_12_5s : Inputs := flight_inputs 12500000 true false (of_Z 5) 11000000.
Definition call_at_14s : Inputs := flight_inputs 14000000 true false (of_Z 5) 14000000.

Definition after_10s : Standard * Outputs := tick front_params call_at_10s hover.
Definition after_11s : Standard * Outputs := tick front_params call_at_11s after_10s.
Definition after_12_5s : Standard * Outputs := tick front_params call_at_12_5s after_11s.
Definition after_14s : Standard * Outputs := tick front_params call_at_14s after_12_5s.

(** A front transition started at time 0 with VT_F_TRANS_THR = 1 and
    VT_PSHER_RMP_DT = 1 s, called every 4 ms with fresh setpoints. *)
Definition steep_params : Params := flight_params f1 f1 0 (of_Z 10).
Definition steep_call (now : Z) : Inputs :=
  flight_inputs now true false (of_Z 5) now.
Definition steep_start : Standard :=
  flight_object vtol_mode.TRANSITION_TO_FW 0 f1 f0 false.
Definition steep_after_996ms : Standard :=
  update_transition_state steep_params (steep_call 996000) steep_start.
Definition steep_after_1000ms : Standard :=
  update_transition_state steep_params (steep_call 1000000) steep_after_996ms.
Definition steep_after_1004ms : Standard :=
  update_transition_state steep_params (steep_call 1004000) steep_after_1000ms.

End Scenarios.

(* ================================================================== *)
(** * Notions for the behaviour of the scheduler and the controller     *)
(* ================================================================== *)

(** The order facts of IEEE-754 comparisons: [<] is irreflexive and
    asymmetric, and 1 is not below 0. *)
Class FloatOrderLaws (FO : FloatOps) : Prop := {
  flt_irrefl : forall a : float, flt a a = false;
  flt_asym : forall a b : float, flt a b = true -> flt b a = false;
  flt_one_zero : flt (of_Z 1) (of_Z 0) = false
}.

Section Behaviour.

Context {FO : FloatOps} {LIB : Px4Lib FO} {BASE : VtolTypeBase FO LIB}.

Definition mode_eqb (a b : vtol_mode.t) : bool :=
  match a, b with
  | vtol_mode.MC_MODE, vtol_mode.MC_MODE
  | vtol_mode.TRANSITION_TO_FW, vtol_mode.TRANSITION_TO_FW
  | vtol_mode.TRANSITION_TO_MC, vtol_mode.TRANSITION_TO_MC
  | vtol_mode.FW_MODE, vtol_mode.FW_MODE => true
  | _, _ => false
  end.

(** The edges of the flight-mode graph: staying, starting a transition,
    completing it, and abandoning it for the hover or for the other
    transition. *)
Definition allowed_step (m m' : vtol_mode.t) : bool :=
  match m, m' with
  | vtol_mode.MC_MODE, vtol_mode.MC_MODE
  | vtol_mode.MC_MODE, vtol_mode.TRANSITION_TO_FW
  | vtol_mode.TRANSITION_TO_FW, vtol_mode.TRANSITION_TO_FW
  | vtol_mode.TRANSITION_TO_FW, vtol_mode.FW_MODE
  | vtol_mode.TRANSITION_TO_FW, vtol_mode.MC_MODE
  | vtol_mode.FW_MODE, vtol_mode.FW_MODE
  | vtol_mode.FW_MODE, vtol_mode.TRANSITION_TO_MC
  | vtol_mode.TRANSITION_TO_MC, vtol_mode.TRANSITION_TO_MC
  | vtol_mode.TRANSITION_TO_MC, vtol_mode.MC_MODE
  | vtol_mode.TRANSITION_TO_MC, vtol_mode.TRANSITION_TO_FW => true
  | _, _ => false
  end.

(** The coarse mode that belongs to a flight mode (lines 185-201). *)
Definition coarse_mode (m : vtol_mode.t) : mode.t :=
  match m with
  | vtol_mode.MC_MODE => mode.ROTARY_WING
  | vtol_mode.FW_MODE => mode.FIXED_WING
  | vtol_mode.TRANSITION_TO_FW => mode.TRANSITION_TO_FW
  | vtol_mode.TRANSITION_TO_MC => mode.TRANSITION_TO_MC
  end.

(** Successive calls of the scheduler, one per element of [calls]. *)
Definition run_scheduler (P : Params) (calls : list Inputs) (s : Standard)
  : Standard :=
  fold_left (fun s I => update_vtol_state P I s) calls s.

(** The four mc weights hold one value. *)
Definition weights_equal (s : Standard) : Prop :=
  mc_pitch_weight s = mc_roll_weight s /\
  mc_yaw_weight s = mc_roll_weight s /\
  mc_throttle_weight s = mc_roll_weight s.

(** The front transition has run past VT_TRANS_TIMEOUT, a timeout of at
    most [FLT_EPSILON] meaning none. *)
Definition transition_timed_out (P : Params) (t : float) : bool :=
  fgt (vt_trans_timeout P) FLT_EPSILON && fgt t (vt_trans_timeout P).

(** The attitude setpoint that lines 220-221 or 229-230 build from fresh
    virtual setpoints. *)
Definition synthesised_att_sp (I : Inputs) : vehicle_attitude_setpoint_s :=
  if flag_control_climb_rate_enabled I then
    set_roll_body (roll_body (fw_virtual_att_sp I)) (mc_virtual_att_sp I)
  else
    let fw := fw_virtual_att_sp I in
    set_thrust_body
      (mkVector3f (v0 (thrust_body fw)) (v1 (thrust_body fw))
                  (fneg (v0 (thrust_body fw)))) fw.

End Behaviour.

(** More objects and calls for the concrete runs, over [StdLib] and
    [IdleBase]: a call at time [now] with fresh setpoints that asks for
    fixed-wing flight at an airspeed of 5 m/s, one that does not ask for it
    at 20 m/s, an object in a front transition started at time 0 whose
    pusher throttle is at [pusher], an object in a back transition started
    at time 0, and parameters with VT_B_TRANS_RAMP = 10 s above
    VT_B_TRANS_DUR = 8 s. *)
Section MoreScenarios.

Context {FO : FloatOps}.

#[local] Existing Instance StdLib.
#[local] Existing Instance IdleBase.

Definition front_call (now : Z) : Inputs :=
  flight_inputs now true false (of_Z 5) now.
Definition back_call (now : Z) : Inputs :=
  flight_inputs now false false (of_Z 20) now.
Definition front_object (pusher : float) : Standard :=
  flight_object vtol_mode.TRANSITION_TO_FW 0 f1 pusher false.
Definition back_object : Standard :=
  flight_object vtol_mode.TRANSITION_TO_MC 0 f0 f0 false.
Definition long_ramp_params : Params :=
  set_vt_b_trans_ramp (of_Z 10) front_params.

End MoreScenarios.

(* ================================================================== *)
(** * Properties, for every arithmetic and every library               *)
(* ================================================================== *)

Section Properties.

Context {FO : FloatOps} {LIB : Px4Lib FO} {BASE : VtolTypeBase FO LIB}.

(** Unfolds the scheduler on an object given by its fields. *)
Ltac run_scheduler s :=
  destruct s; unfold update_vtol_state, time_since_trans_start in *;
  cbn in *; subst.

(** C1.  While the failsafe flag is set the scheduler forces [MC_MODE] and
    zeroes the pusher throttle and the reverse output, whatever the mode and
    the other inputs; it clears the flag on that call exactly when
    fixed-wing flight is not requested. *)
Theorem failsafe_forces_mc (P : Params) (I : Inputs) (s : Standard) :
  vtol_transition_failsafe s = true ->
  flight_mode (update_vtol_state P I s) = vtol_mode.MC_MODE /\
  pusher_throttle (update_vtol_state P I s) = f0 /\
  reverse_output (update_vtol_state P I s) = f0 /\
  (vtol_transition_failsafe (update_vtol_state P I s) = false <->
   is_fixed_wing_requested I = false).
Proof.
  intros Hfs. run_scheduler s.
  destruct (is_fixed_wing_requested I); cbn; intuition congruence.
Qed.

(** C2.  The channels that the mixer publishes are the mixer table of the
    spec applied to the flight mode, the two input vectors, the four
    weights, the pusher throttle, the reverse output, the state of the two
    slew-rate limiters and VT_ELEV_MC_LOCK, and to nothing else. *)
Theorem mixer_follows_table (P : Params) (I : Inputs) (s : Standard) (o : Outputs) :
  published_channels (fill_actuator_outputs P I s o) =
  mixer_table (flight_mode s)
    (control (actuators_mc_in I)) (control (actuators_fw_in I))
    (mc_roll_weight s) (mc_pitch_weight s) (mc_yaw_weight s)
    (mc_throttle_weight s) (pusher_throttle s) (reverse_output s)
    (SlewRate_getState (flaps_setpoint_with_slewrate s))
    (SlewRate_getState (spoiler_setpoint_with_slewrate s))
    (vt_elev_mc_lock P).
Proof.
  unfold published_channels, fill_actuator_outputs, mix_mc_out, mix_fw_out,
    mixer_table.
  destruct (flight_mode s); reflexivity.
Qed.

(** The completion test of the code is the completion condition of the
    spec. *)
Lemma transition_to_fw_condition (P : Params) (I : Inputs) (s : Standard) :
  transition_to_fw P I s = front_completion_condition P I s.
Proof.
  unfold transition_to_fw, front_completion_condition.
  destruct (fgt _ _), (PX4_ISFINITE _), (fw_arsp_mode P =? 0), (fge _ _),
    (can_transition_on_ground I); reflexivity.
Qed.

(** C3.  In [TRANSITION_TO_FW] with fixed-wing flight requested and no
    failsafe, the scheduler switches to [FW_MODE] and records
    [trans_finished_ts := now] exactly when the vehicle can transition on
    the ground, or the minimum transition time has elapsed and either the
    trusted airspeed has reached VT_ARSP_TRANS or the airspeed is not
    trusted; otherwise the mode stays [TRANSITION_TO_FW].  The pusher
    throttle is not modified in either case. *)
Theorem front_transition_completion (P : Params) (I : Inputs) (s : Standard) :
  flight_mode s = vtol_mode.TRANSITION_TO_FW ->
  is_fixed_wing_requested I = true ->
  vtol_transition_failsafe s = false ->
  pusher_throttle (update_vtol_state P I s) = pusher_throttle s /\
  (flight_mode (update_vtol_state P I s) = vtol_mode.FW_MODE <->
   front_completion_condition P I s = true) /\
  (front_completion_condition P I s = true ->
   trans_finished_ts (update_vtol_state P I s) = hrt_absolute_time I) /\
  (front_completion_condition P I s = false ->
   flight_mode (update_vtol_state P I s) = vtol_mode.TRANSITION_TO_FW /\
   trans_finished_ts (update_vtol_state P I s) = trans_finished_ts s).
Proof.
  intros Hm Hreq Hfs.
  rewrite <- transition_to_fw_condition.
  destruct (transition_to_fw P I s) eqn:E;
    unfold update_vtol_state; rewrite Hfs, Hreq, Hm; cbn; rewrite E;
    destruct s; cbn in *; subst; cbn;
    repeat split; intros; congruence.
Qed.

(** The exit test of the code is the exit condition of the spec. *)
Lemma back_exit_test (P : Params) (I : Inputs) (s : Standard) :
  can_transition_on_ground I
  || exit_backtransition_speed_condition P I
  || fgt (time_since_trans_start I s) (vt_b_trans_dur P)
  = back_exit_condition P I s.
Proof. reflexivity. Qed.

(** C4.  In [TRANSITION_TO_MC] with fixed-wing flight not requested and no
    failsafe, the scheduler switches to [MC_MODE] exactly when the vehicle
    can transition on the ground, or the speed condition holds (body-X
    ground velocity below MPC_XY_CRUISE when the XY velocity is valid, else
    calibrated airspeed below MPC_XY_CRUISE when it is finite, else never),
    or the time since the start of the transition exceeds VT_B_TRANS_DUR;
    otherwise the mode stays [TRANSITION_TO_MC]. *)
Theorem back_transition_exit (P : Params) (I : Inputs) (s : Standard) :
  flight_mode s = vtol_mode.TRANSITION_TO_MC ->
  is_fixed_wing_requested I = false ->
  vtol_transition_failsafe s = false ->
  (flight_mode (update_vtol_state P I s) = vtol_mode.MC_MODE <->
   back_exit_condition P I s = true) /\
  (back_exit_condition P I s = false ->
   flight_mode (update_vtol_state P I s) = vtol_mode.TRANSITION_TO_MC).
Proof.
  intros Hm Hreq Hfs.
  rewrite <- back_exit_test.
  unfold update_vtol_state; rewrite Hfs, Hreq, Hm; cbn.
  destruct (can_transition_on_ground I
            || exit_backtransition_speed_condition P I
            || fgt (time_since_trans_start I s) (vt_b_trans_dur P)) eqn:E;
    destruct s; cbn in *; subst; cbn;
    repeat split; intros; congruence.
Qed.

(** ** The transition controller *)

Lemma synthesise_stale (I : Inputs) (s : Standard) :
  virtual_setpoints_stale I = true -> synthesise_att_sp I s = None.
Proof.
  unfold virtual_setpoints_stale, synthesise_att_sp.
  destruct (flag_control_climb_rate_enabled I); intros ->; reflexivity.
Qed.

Lemma synthesise_fresh (I : Inputs) (s : Standard) :
  virtual_setpoints_stale I = false ->
  exists a, synthesise_att_sp I s = Some (set_v_att_sp a s).
Proof.
  unfold virtual_setpoints_stale, synthesise_att_sp.
  destruct (flag_control_climb_rate_enabled I); intros ->; eexists; reflexivity.
Qed.

(** The local [mc_weight] that leaves the blending of the front
    transition. *)
Lemma front_blend_weight (P : Params) (I : Inputs) (t : float) (s : Standard) :
  snd (front_blend P I t s) = front_weight_schedule true P I t.
Proof.
  unfold front_blend, front_weight_schedule. destruct s; cbn.
  destruct (fgt _ f0 && PX4_ISFINITE _ && fgt _ f0 && fge _ _ && fgt t _);
    [reflexivity|].
  destruct (negb _ || negb _); reflexivity.
Qed.

Lemma front_transition_weight (P : Params) (I : Inputs) (t : float) (s : Standard) :
  snd (front_transition P I t s) = front_weight_schedule true P I t.
Proof.
  unfold front_transition.
  rewrite <- (front_blend_weight P I t (front_pusher_ramp P t s)).
  destruct (front_blend P I t (front_pusher_ramp P t s)); reflexivity.
Qed.

(** The four weights after the schedules are the clamped local
    [mc_weight]. *)
Lemma transition_schedules_weights (P : Params) (I : Inputs) (t : float) (s : Standard) :
  let w :=
    constrain
      (snd match flight_mode s with
           | vtol_mode.TRANSITION_TO_FW => front_transition P I t s
           | vtol_mode.TRANSITION_TO_MC => back_transition P I t s
           | _ => (s, f1)
           end) f0 f1 in
  let s' := transition_schedules P I t s in
  mc_roll_weight s' = w /\ mc_pitch_weight s' = w /\
  mc_yaw_weight s' = w /\ mc_throttle_weight s' = w.
Proof.
  unfold transition_schedules.
  destruct (match flight_mode s with
            | vtol_mode.TRANSITION_TO_FW => front_transition P I t s
            | vtol_mode.TRANSITION_TO_MC => back_transition P I t s
            | _ => (s, f1)
            end) as [s1 w1].
  destruct s1; cbn. auto.
Qed.

Lemma set_v_att_sp_flight_mode (a : vehicle_attitude_setpoint_s) (s : Standard) :
  flight_mode (set_v_att_sp a s) = flight_mode s.
Proof. destruct s; reflexivity. Qed.

(** C5.  In [TRANSITION_TO_FW] with fresh virtual setpoints, the mc weight
    before the final clamp is [1 - |airspeed - VT_ARSP_BLEND| / margin] when
    the margin VT_ARSP_TRANS - VT_ARSP_BLEND is positive, the calibrated
    airspeed is finite, above zero and at least VT_ARSP_BLEND, and the
    minimum transition time has elapsed; otherwise, when FW_ARSP_MODE is
    not 0 or the airspeed is not finite, it is
    [clamp(2 * (1 - t / minimum time), 0, 1)]; otherwise it is 1.  The four
    weights of the object are this value clamped to [0, 1]. *)
Theorem front_weight_schedule_guarded (P : Params) (I : Inputs) (s : Standard) :
  base_transition_frame ->
  flight_mode s = vtol_mode.TRANSITION_TO_FW ->
  virtual_setpoints_stale I = false ->
  let t := time_since_trans_start I s in
  let w := front_weight_schedule true P I t in
  let s' := update_transition_state P I s in
  (forall s0, snd (front_transition P I t s0) = w) /\
  mc_roll_weight s' = constrain w f0 f1 /\
  mc_pitch_weight s' = constrain w f0 f1 /\
  mc_yaw_weight s' = constrain w f0 f1 /\
  mc_throttle_weight s' = constrain w f0 f1.
Proof.
  intros Hframe Hm Hfresh t w s'.
  split; [intros s0; apply front_transition_weight|].
  subst s'. unfold update_transition_state. fold t.
  destruct (Hframe I s) as (Fm & _).
  destruct (synthesise_fresh I (VtolType_update_transition_state I s) Hfresh)
    as [a ->].
  pose proof (transition_schedules_weights P I t
                (set_v_att_sp a (VtolType_update_transition_state I s))) as W.
  cbv zeta in W. rewrite set_v_att_sp_flight_mode, Fm, Hm in W.
  rewrite front_transition_weight in W. exact W.
Qed.

(** C6.  On a call at which the virtual attitude setpoints that the
    transition needs are stale, [update_transition_state] returns before
    its schedules: the attitude setpoint, the four mc weights and the
    pusher throttle all keep their value, and no division is executed. *)
Theorem stale_setpoints_skip_schedules (P : Params) (I : Inputs) (s : Standard) :
  base_transition_frame ->
  virtual_setpoints_stale I = true ->
  let s' := update_transition_state P I s in
  v_att_sp s' = v_att_sp s /\
  mc_roll_weight s' = mc_roll_weight s /\
  mc_pitch_weight s' = mc_pitch_weight s /\
  mc_yaw_weight s' = mc_yaw_weight s /\
  mc_throttle_weight s' = mc_throttle_weight s /\
  pusher_throttle s' = pusher_throttle s /\
  divisions s' = divisions s.
Proof.
  intros Hframe Hstale s'. subst s'. unfold update_transition_state.
  rewrite synthesise_stale by assumption.
  destruct (Hframe I s) as (_ & _ & W1 & W2 & W3 & W4 & Hp & _ & Ha & Hd).
  auto 10.
Qed.

(** C7.  A call of the scheduler that ends in [FW_MODE] started in
    [FW_MODE] or in [TRANSITION_TO_FW].  In the first case the four mc
    weights are 0 after it; in the second, the call on which the front
    transition completes, each of them is the [mc_roll_weight] from before
    the call.  In both cases the mixer emits 0 on the roll, pitch, yaw and
    throttle channels of the MC group. *)
Theorem fw_mode_weights_and_mc_outputs
  (P : Params) (I I' : Inputs) (s : Standard) (o : Outputs) :
  flight_mode (update_vtol_state P I s) = vtol_mode.FW_MODE ->
  let s' := update_vtol_state P I s in
  let w := match flight_mode s with
           | vtol_mode.FW_MODE => f0
           | _ => mc_roll_weight s
           end in
  (flight_mode s = vtol_mode.FW_MODE \/
   flight_mode s = vtol_mode.TRANSITION_TO_FW) /\
  mc_roll_weight s' = w /\ mc_pitch_weight s' = w /\
  mc_yaw_weight s' = w /\ mc_throttle_weight s' = w /\
  let mc_out := control (actuators_out_0 (fill_actuator_outputs P I' s' o)) in
  INDEX_ROLL mc_out = f0 /\ INDEX_PITCH mc_out = f0 /\
  INDEX_YAW mc_out = f0 /\ INDEX_THROTTLE mc_out = f0.
Proof.
  intros Hfw s' w.
  assert (Hout : let mc_out :=
                   control (actuators_out_0 (fill_actuator_outputs P I' s' o)) in
                 INDEX_ROLL mc_out = f0 /\ INDEX_PITCH mc_out = f0 /\
                 INDEX_YAW mc_out = f0 /\ INDEX_THROTTLE mc_out = f0).
  { cbn. unfold mix_mc_out. subst s'. rewrite Hfw. cbn. auto. }
  refine ((fun H => conj (proj1 H) (conj (proj1 (proj2 H))
            (conj (proj1 (proj2 (proj2 H))) (conj (proj1 (proj2 (proj2 (proj2 H))))
            (conj (proj2 (proj2 (proj2 (proj2 H)))) Hout))))) _).
  clear Hout. subst s' w. revert Hfw.
  unfold update_vtol_state.
  destruct s as [m ts wr wp wy wt pt ro fs tf vm bm sp fl spo qc dv]; cbn.
  destruct fs, (is_fixed_wing_requested I), m; cbn;
    try (intros H; discriminate H); try (intros _; solve [auto 10]).
  - destruct (transition_to_fw P I _); cbn; intros H;
      [auto 10|discriminate H].
  - destruct (can_transition_on_ground I || _ || _); cbn;
      intros H; discriminate H.
Qed.

(** ** The pusher throttle and the divisions of the two transitions *)

Ltac split_ifs :=
  repeat match goal with
         | |- context [if ?c then _ else _] => destruct c eqn:?; cbn
         end.

(** What the schedules leave in [pusher_throttle] and [divisions] is what
    the branch of the flight mode left there. *)
Lemma transition_schedules_keep (P : Params) (I : Inputs) (t : float) (s : Standard) :
  let b := match flight_mode s with
           | vtol_mode.TRANSITION_TO_FW => front_transition P I t s
           | vtol_mode.TRANSITION_TO_MC => back_transition P I t s
           | _ => (s, f1)
           end in
  pusher_throttle (transition_schedules P I t s) = pusher_throttle (fst b) /\
  divisions (transition_schedules P I t s) = divisions (fst b).
Proof.
  unfold transition_schedules.
  destruct (match flight_mode s with
            | vtol_mode.TRANSITION_TO_FW => front_transition P I t s
            | vtol_mode.TRANSITION_TO_MC => back_transition P I t s
            | _ => (s, f1)
            end) as [s1 w1].
  destruct s1; cbn. auto.
Qed.

Lemma back_transition_pusher (P : Params) (I : Inputs) (t : float) (s : Standard) :
  pusher_throttle (fst (back_transition P I t s)) = reverse_ramp_value P t.
Proof.
  unfold back_transition, back_pusher_ramp, reverse_ramp_value, note_div,
    rebuild_q_d.
  destruct s; cbn. split_ifs; reflexivity.
Qed.

Lemma back_transition_divisions (P : Params) (I : Inputs) (t : float) (s : Standard) :
  divisions (fst (back_transition P I t s)) =
  (if fgt (vt_b_trans_ramp P) FLT_EPSILON
   then [(BackWeightRamp, vt_b_trans_ramp P)] else [])
  ++ (if fge t (vt_b_rev_del P)
      then [(BackReverseRamp, vt_psher_rmp_dt P)] else [])
  ++ divisions s.
Proof.
  unfold back_transition, back_pusher_ramp, note_div, rebuild_q_d.
  destruct s; cbn. split_ifs; reflexivity.
Qed.

(** The divisions of the front transition: those of the blending, which
    are not at the pusher ramp, then the one of the pusher ramp if it was
    executed. *)
Lemma front_transition_divisions (P : Params) (I : Inputs) (t : float) (s : Standard) :
  exists l,
    divisions (fst (front_transition P I t s)) =
    l ++ (if fle (vt_psher_rmp_dt P) f0 then []
          else if fle (pusher_throttle s) (vt_f_trans_thr P)
               then [(FrontPusherRamp, vt_psher_rmp_dt P)] else [])
      ++ divisions s /\
    forall e, In e l -> DivSite_eqb (fst e) FrontPusherRamp = false.
Proof.
  unfold front_transition, front_blend, front_pusher_ramp, note_div, rebuild_q_d.
  destruct s; cbn.
  destruct (fle (vt_psher_rmp_dt P) f0); [|destruct (fle _ (vt_f_trans_thr P))];
    cbn;
    (destruct (fgt _ f0 && PX4_ISFINITE _ && fgt _ f0 && fge _ _ && fgt t _);
     [|destruct (negb _ || negb _)]); cbn;
    destruct (fgt (vt_trans_timeout P) FLT_EPSILON); cbn;
    try destruct (fgt t (vt_trans_timeout P)); cbn;
    ((exists [(FrontBlendMargin, fsub (vt_arsp_trans P) (vt_arsp_blend P))];
      split; [reflexivity|]; intros e [<-|[]]; reflexivity)
     || (exists [(FrontMinimumTime, getMinimumFrontTransitionTime I)];
         split; [reflexivity|]; intros e [<-|[]]; reflexivity)
     || (exists []; split; [reflexivity|]; intros e [])).
Qed.

(** After a call with fresh setpoints the object is the result of the
    schedules on the object that the base class and the setpoint synthesis
    left. *)
Lemma update_transition_state_fresh (P : Params) (I : Inputs) (s : Standard) :
  base_transition_frame ->
  virtual_setpoints_stale I = false ->
  exists s1,
    update_transition_state P I s =
    transition_schedules P I (time_since_trans_start I s) s1 /\
    flight_mode s1 = flight_mode s /\
    pusher_throttle s1 = pusher_throttle s /\
    divisions s1 = divisions s.
Proof.
  intros Hframe Hfresh. unfold update_transition_state.
  destruct (Hframe I s) as (Fm & _ & _ & _ & _ & _ & Fp & _ & _ & Fd).
  destruct (synthesise_fresh I (VtolType_update_transition_state I s) Hfresh)
    as [a ->].
  eexists; split; [reflexivity|].
  destruct (VtolType_update_transition_state I s); cbn in *. auto.
Qed.

(** The pusher throttle after a call in the back transition. *)
Lemma back_transition_pusher_throttle (P : Params) (I : Inputs) (s : Standard) :
  base_transition_frame ->
  flight_mode s = vtol_mode.TRANSITION_TO_MC ->
  virtual_setpoints_stale I = false ->
  pusher_throttle (update_transition_state P I s) =
  reverse_ramp_value P (time_since_trans_start I s).
Proof.
  intros Hframe Hm Hfresh.
  destruct (update_transition_state_fresh P I s Hframe Hfresh)
    as (s1 & -> & Fm & _).
  destruct (transition_schedules_keep P I (time_since_trans_start I s) s1)
    as [Hp _].
  rewrite Hp, Fm, Hm. apply back_transition_pusher.
Qed.

(** The first two parts of the ramp hold in every arithmetic that obeys
    the comparison laws, binary32 included. *)
Lemma reverse_ramp_before_and_during {LAWS : FloatLaws FO}
  (P : Params) (I : Inputs) (s : Standard) :
  base_transition_frame ->
  flight_mode s = vtol_mode.TRANSITION_TO_MC ->
  virtual_setpoints_stale I = false ->
  let t := time_since_trans_start I s in
  let p := pusher_throttle (update_transition_state P I s) in
  (flt t (vt_b_rev_del P) = true -> p = f0) /\
  (fge t (vt_b_rev_del P) = true ->
   p = fmul (constrain (fdiv (fsub t (vt_b_rev_del P)) (vt_psher_rmp_dt P)) f0 f1)
            (vt_b_trans_thr P)).
Proof.
  intros Hframe Hm Hfresh t p. subst p.
  rewrite (back_transition_pusher_throttle P I s Hframe Hm Hfresh).
  fold t. unfold reverse_ramp_value, fge. split.
  - intros Hlt. apply flt_not_fle in Hlt. rewrite Hlt. reflexivity.
  - intros ->. reflexivity.
Qed.

Lemma existsb_none {A : Type} (f : A -> bool) (l : list A) :
  (forall e, In e l -> f e = false) -> existsb f l = false.
Proof.
  induction l as [|x l IH]; cbn; intros H; [reflexivity|].
  rewrite (H x) by auto. apply IH. auto.
Qed.

(** C10.  In the back transition, once the time since the start of the
    transition has reached VT_B_REV_DEL, the reverse-throttle scale is
    divided by VT_PSHER_RMP_DT whatever its value: the division is a
    division by zero exactly when VT_PSHER_RMP_DT is zero.  The pusher ramp
    of the front transition divides by VT_PSHER_RMP_DT only after it has
    found it above zero, and never divides by zero. *)
Theorem reverse_ramp_division_unguarded {LAWS : FloatLaws FO}
  (P : Params) (I : Inputs) (s : Standard) :
  base_transition_frame ->
  virtual_setpoints_stale I = false ->
  divisions s = [] ->
  let s' := update_transition_state P I s in
  (flight_mode s = vtol_mode.TRANSITION_TO_MC ->
   fge (time_since_trans_start I s) (vt_b_rev_del P) = true ->
   In (BackReverseRamp, vt_psher_rmp_dt P) (divisions s') /\
   divides_by_zero_at BackReverseRamp s' = fis_zero (vt_psher_rmp_dt P)) /\
  (flight_mode s = vtol_mode.TRANSITION_TO_FW ->
   (forall d, In (FrontPusherRamp, d) (divisions s') ->
              d = vt_psher_rmp_dt P /\ fle d f0 = false) /\
   divides_by_zero_at FrontPusherRamp s' = false).
Proof.
  intros Hframe Hfresh Hnil s'. subst s'.
  destruct (update_transition_state_fresh P I s Hframe Hfresh)
    as (s1 & -> & Fm & Fp & Fd).
  destruct (transition_schedules_keep P I (time_since_trans_start I s) s1)
    as [_ Hd].
  unfold divides_by_zero_at. rewrite Hd, Fm. clear Hd.
  split; intros Hm; rewrite Hm.
  - intros Hdel. rewrite back_transition_divisions, Hdel, Fd, Hnil.
    destruct (fgt (vt_b_trans_ramp P) FLT_EPSILON); cbn.
    + split; [auto|]. now rewrite orb_false_r.
    + split; [auto|]. now rewrite orb_false_r.
  - destruct (front_transition_divisions P I (time_since_trans_start I s) s1)
      as (l & -> & Hl).
    rewrite Fd, Hnil, app_nil_r, Fp.
    assert (Hramp : forall d,
               In (FrontPusherRamp, d)
                  (if fle (vt_psher_rmp_dt P) f0 then []
                   else if fle (pusher_throttle s) (vt_f_trans_thr P)
                        then [(FrontPusherRamp, vt_psher_rmp_dt P)] else []) ->
               d = vt_psher_rmp_dt P /\ fle d f0 = false).
    { intros d. destruct (fle (vt_psher_rmp_dt P) f0) eqn:E; [intros []|].
      destruct (fle (pusher_throttle s) (vt_f_trans_thr P)); [|intros []].
      intros [[= <-]|[]]. auto. }
    split.
    + intros d Hin. apply in_app_or in Hin. destruct Hin as [Hin|Hin].
      * apply Hl in Hin. discriminate Hin.
      * apply Hramp, Hin.
    + rewrite existsb_app. rewrite existsb_none; cbn.
      * apply existsb_none. intros [st d] Hin. cbn.
        destruct st; try reflexivity. cbn.
        destruct (Hramp d Hin) as [-> Hle].
        destruct (fis_zero (vt_psher_rmp_dt P)) eqn:Ez; [|reflexivity].
        apply fle_zero in Ez. unfold f0 in Hle. congruence.
      * intros e Hin. rewrite (Hl e Hin). reflexivity.
Qed.

End Properties.

(* ================================================================== *)
(** * The comparison laws hold in binary32                               *)
(* ================================================================== *)

Lemma B32_flt_not_fle (a b : spec_float) :
  SFltb a b = true -> SFleb b a = false.
Proof.
  unfold SFltb, SFleb.
  destruct a as [sa|sa| |sa ma ea], b as [sb|sb| |sb mb eb]; cbn;
    try destruct sa; try destruct sb; cbn; try congruence.
  - rewrite (Z.compare_antisym ea eb), !Pos.compare_cont_spec.
    rewrite (Pos.compare_antisym ma mb).
    destruct (ea ?= eb); cbn; try congruence.
    destruct (ma ?= mb)%positive; cbn; congruence.
  - rewrite (Z.compare_antisym ea eb), !Pos.compare_cont_spec.
    rewrite (Pos.compare_antisym ma mb).
    destruct (ea ?= eb); cbn; try congruence.
    destruct (ma ?= mb)%positive; cbn; congruence.
Qed.

Lemma B32_fle_zero (d : spec_float) :
  B32.is_zero d = true -> SFleb d (binary_normalize B32.prec B32.emax 0 0 false) = true.
Proof. destruct d as [[|]|s| |s m e]; cbn; congruence. Qed.

#[local] Instance B32_laws : FloatLaws B32.ops.
Proof.
  split; [exact B32_flt_not_fle | exact B32_fle_zero].
Qed.

(* ================================================================== *)
(** * The concrete flights, in binary32                                 *)
(* ================================================================== *)

(** The idle base class keeps everything. *)
Lemma idle_base_frame (FO : FloatOps) :
  @base_transition_frame FO (@StdLib FO) (@IdleBase FO).
Proof. intros I s. cbn. repeat split; reflexivity. Defined.

Section Binary32Flights.

#[local] Existing Instance B32.ops.
#[local] Existing Instance StdLib.
#[local] Existing Instance IdleBase.

(** The failsafe flag is set during a front transition while the pilot
    still asks for fixed-wing flight. *)
Lemma failsafe_forces_mc_witness :
  let s := flight_object vtol_mode.TRANSITION_TO_FW 0 f1 (ratio 3 8) true in
  let I := flight_inputs 1000000 true false (of_Z 5) 1000000 in
  vtol_transition_failsafe s = true /\
  flight_mode (update_vtol_state front_params I s) = vtol_mode.MC_MODE /\
  pusher_throttle (update_vtol_state front_params I s) = f0.
Proof.
  cbv zeta. split; [reflexivity|].
  pose proof (failsafe_forces_mc front_params
                (flight_inputs 1000000 true false (of_Z 5) 1000000)
                (flight_object vtol_mode.TRANSITION_TO_FW 0 f1 (ratio 3 8) true)
                eq_refl) as H.
  split; [exact (proj1 H)|exact (proj1 (proj2 H))].
Defined.

(** Four seconds into a front transition at a trusted airspeed of
    21 m/s. *)
Lemma front_transition_completion_witness :
  let s := flight_object vtol_mode.TRANSITION_TO_FW 0 f0 (ratio 3 4) false in
  let I := flight_inputs 4000000 true false (of_Z 21) 4000000 in
  flight_mode s = vtol_mode.TRANSITION_TO_FW /\
  is_fixed_wing_requested I = true /\
  vtol_transition_failsafe s = false /\
  front_completion_condition front_params I s = true /\
  flight_mode (update_vtol_state front_params I s) = vtol_mode.FW_MODE /\
  trans_finished_ts (update_vtol_state front_params I s) = 4000000.
Proof.
  cbv zeta.
  pose proof (front_transition_completion front_params
                (flight_inputs 4000000 true false (of_Z 21) 4000000)
                (flight_object vtol_mode.TRANSITION_TO_FW 0 f0 (ratio 3 4) false)
                eq_refl eq_refl eq_refl) as H.
  assert (C : front_completion_condition front_params
                (flight_inputs 4000000 true false (of_Z 21) 4000000)
                (flight_object vtol_mode.TRANSITION_TO_FW 0 f0 (ratio 3 4) false)
              = true) by (vm_compute; reflexivity).
  split; [reflexivity|]. split; [reflexivity|]. split; [reflexivity|].
  split; [exact C|].
  split; [exact (proj2 (proj1 (proj2 H)) C)|exact (proj1 (proj2 (proj2 H)) C)].
Defined.

(** Two seconds into a back transition at a ground speed of 4 m/s. *)
Lemma back_transition_exit_witness :
  let s := flight_object vtol_mode.TRANSITION_TO_MC 0 f1 f0 false in
  let I := flight_inputs_ground_speed 2000000 (of_Z 4) in
  flight_mode s = vtol_mode.TRANSITION_TO_MC /\
  is_fixed_wing_requested I = false /\
  vtol_transition_failsafe s = false /\
  body_x_velocity I = of_Z 4 /\
  back_exit_condition front_params I s = true /\
  flight_mode (update_vtol_state front_params I s) = vtol_mode.MC_MODE.
Proof.
  cbv zeta.
  pose proof (back_transition_exit front_params
                (flight_inputs_ground_speed 2000000 (of_Z 4))
                (flight_object vtol_mode.TRANSITION_TO_MC 0 f1 f0 false)
                eq_refl eq_refl eq_refl) as H.
  assert (C : back_exit_condition front_params
                (flight_inputs_ground_speed 2000000 (of_Z 4))
                (flight_object vtol_mode.TRANSITION_TO_MC 0 f1 f0 false)
              = true) by (vm_compute; reflexivity).
  split; [reflexivity|]. split; [reflexivity|]. split; [reflexivity|].
  split; [vm_compute; reflexivity|].
  split; [exact C|exact (proj2 (proj1 H) C)].
Defined.

(** C5, the schedule as worded fails.  Four seconds into a front
    transition with FW_ARSP_MODE = 1, VT_ARSP_BLEND = 0 and a calibrated
    airspeed of 0: the wording takes the airspeed blend, which gives 1; the
    code, which asks for an airspeed above zero, takes the time-based ramp,
    which gives 0. *)
Lemma front_weight_as_worded_fails :
  ~ front_weight_as_worded
      (flight_params (ratio 3 4) (of_Z 2) 1 f0)
      (flight_inputs 4000000 true false f0 4000000)
      (flight_object vtol_mode.TRANSITION_TO_FW 0 f1 (ratio 3 4) false).
Proof.
  intros H. specialize (H eq_refl eq_refl). vm_compute in H. discriminate H.
Qed.

Lemma front_weight_schedule_guarded_witness :
  let P := flight_params (ratio 3 4) (of_Z 2) 1 f0 in
  let I := flight_inputs 4000000 true false f0 4000000 in
  let s := flight_object vtol_mode.TRANSITION_TO_FW 0 f1 (ratio 3 4) false in
  base_transition_frame /\
  flight_mode s = vtol_mode.TRANSITION_TO_FW /\
  virtual_setpoints_stale I = false /\
  mc_roll_weight (update_transition_state P I s) =
  constrain (front_weight_schedule true P I (time_since_trans_start I s)) f0 f1.
Proof.
  cbv zeta.
  pose proof (front_weight_schedule_guarded
                (flight_params (ratio 3 4) (of_Z 2) 1 f0)
                (flight_inputs 4000000 true false f0 4000000)
                (flight_object vtol_mode.TRANSITION_TO_FW 0 f1 (ratio 3 4) false)
                (idle_base_frame B32.ops) eq_refl eq_refl) as H.
  split; [exact (idle_base_frame B32.ops)|].
  split; [reflexivity|]. split; [reflexivity|].
  exact (proj1 (proj2 H)).
Defined.

(** C6, the schedules do not run on a stale call.  The call at 12.5 s of
    the front transition above finds the virtual setpoints stale: the
    pusher throttle stays at 0.375, where the ramp of that call would have
    put it at 0.9375. *)
Lemma stale_call_runs_schedules_fails :
  ~ stale_call_runs_schedules front_params call_at_12_5s (fst after_11s).
Proof.
  intros H. specialize (H eq_refl eq_refl).
  destruct H as (_ & Hp & _). vm_compute in Hp. discriminate Hp.
Qed.

Lemma stale_setpoints_skip_schedules_witness :
  base_transition_frame /\
  virtual_setpoints_stale call_at_12_5s = true /\
  pusher_throttle (update_transition_state front_params call_at_12_5s (fst after_11s))
  = pusher_throttle (fst after_11s) /\
  mc_roll_weight (update_transition_state front_params call_at_12_5s (fst after_11s))
  = mc_roll_weight (fst after_11s).
Proof.
  pose proof (stale_setpoints_skip_schedules front_params call_at_12_5s
                (fst after_11s) (idle_base_frame B32.ops) eq_refl) as H.
  cbv zeta in H.
  split; [exact (idle_base_frame B32.ops)|].
  split; [reflexivity|].
  split; [exact (proj1 (proj2 (proj2 (proj2 (proj2 (proj2 H))))))|].
  exact (proj1 (proj2 H)).
Defined.

(** C7, the weights on the call that completes the front transition.  A
    vehicle on the ground in [TRANSITION_TO_FW] with the weights at 1: the
    scheduler switches to [FW_MODE] and leaves the four weights at 1. *)
Lemma fw_mode_zeroes_weights_fails :
  ~ fw_mode_zeroes_weights front_params
      (flight_inputs 1000000 true true f0 1000000)
      (flight_object vtol_mode.TRANSITION_TO_FW 0 f1 f0 false)
      blank_outputs.
Proof.
  intros H. specialize (H eq_refl).
  destruct H as (Hw & _). vm_compute in Hw. discriminate Hw.
Qed.

Lemma fw_mode_weights_and_mc_outputs_witness :
  let I := flight_inputs 1000000 true true f0 1000000 in
  let s := flight_object vtol_mode.TRANSITION_TO_FW 0 f1 f0 false in
  let s' := update_vtol_state front_params I s in
  flight_mode s' = vtol_mode.FW_MODE /\
  mc_roll_weight s' = f1 /\
  INDEX_THROTTLE (control (actuators_out_0
    (fill_actuator_outputs front_params I s' blank_outputs))) = f0.
Proof.
  cbv zeta.
  pose proof (fw_mode_weights_and_mc_outputs front_params
                (flight_inputs 1000000 true true f0 1000000)
                (flight_inputs 1000000 true true f0 1000000)
                (flight_object vtol_mode.TRANSITION_TO_FW 0 f1 f0 false)
                blank_outputs eq_refl) as H.
  cbv zeta in H.
  split; [reflexivity|].
  split; [exact (proj1 (proj2 H))|].
  exact (proj2 (proj2 (proj2 (proj2 (proj2 (proj2 (proj2 (proj2 H)))))))).
Defined.

(** C8.  With VT_F_TRANS_THR = 0.75 and VT_PSHER_RMP_DT = 2 s, both in
    range, the pusher throttle of the front transition above is 0 when the
    transition starts, 0.375 one second later, still 0.375 after the call
    at 12.5 s that finds stale setpoints and returns early, and 1.5 after
    the call at 14 s: above 1, and published as the throttle of the FW
    group. *)
Theorem pusher_ramp_overshoot :
  fle f0 (vt_f_trans_thr front_params) = true /\
  fle (vt_f_trans_thr front_params) f1 = true /\
  pusher_throttle (fst hover) = f0 /\
  flight_mode (fst after_10s) = vtol_mode.TRANSITION_TO_FW /\
  pusher_throttle (fst after_10s) = f0 /\
  pusher_throttle (fst after_11s) = ratio 3 8 /\
  virtual_setpoints_stale call_at_12_5s = true /\
  pusher_throttle (fst after_12_5s) = ratio 3 8 /\
  flight_mode (fst after_14s) = vtol_mode.TRANSITION_TO_FW /\
  pusher_throttle (fst after_14s) = ratio 3 2 /\
  fle (pusher_throttle (fst after_14s)) f1 = false /\
  INDEX_THROTTLE (control (actuators_out_1 (snd after_14s))) = ratio 3 2.
Proof. vm_compute. repeat split. Qed.

(** The same without any skipped call: with VT_F_TRANS_THR = 1 and
    VT_PSHER_RMP_DT = 1 s the ramp is at the target after 1 s, is still
    taken on the next call because the throttle is not above the target,
    and then leaves the throttle above 1. *)
Lemma steep_ramp_passes_one :
  fle (pusher_throttle steep_after_996ms) f1 = true /\
  pusher_throttle steep_after_1000ms = f1 /\
  flt f1 (pusher_throttle steep_after_1004ms) = true.
Proof. vm_compute. repeat split. Qed.

(** A back transition with VT_PSHER_RMP_DT = 0, started at 10 s and
    called at 10.5 s, that is at VT_B_REV_DEL: the scale is 0 / 0 and the
    pusher throttle is not a number. *)
Lemma reverse_ramp_division_unguarded_witness :
  let P := flight_params (ratio 3 4) f0 0 (of_Z 10) in
  let I := flight_inputs 10500000 false false (of_Z 20) 10500000 in
  let s := flight_object vtol_mode.TRANSITION_TO_MC 10000000 f0 f0 false in
  base_transition_frame /\
  virtual_setpoints_stale I = false /\
  divisions s = [] /\
  flight_mode s = vtol_mode.TRANSITION_TO_MC /\
  fge (time_since_trans_start I s) (vt_b_rev_del P) = true /\
  divides_by_zero_at BackReverseRamp (update_transition_state P I s) = true /\
  pusher_throttle (update_transition_state P I s) = S754_nan.
Proof.
  cbv zeta.
  pose proof (reverse_ramp_division_unguarded (LAWS := B32_laws)
                (flight_params (ratio 3 4) f0 0 (of_Z 10))
                (flight_inputs 10500000 false false (of_Z 20) 10500000)
                (flight_object vtol_mode.TRANSITION_TO_MC 10000000 f0 f0 false)
                (idle_base_frame B32.ops) eq_refl eq_refl) as H.
  cbv zeta in H.
  assert (T : fge (time_since_trans_start
                     (flight_inputs 10500000 false false (of_Z 20) 10500000)
                     (flight_object vtol_mode.TRANSITION_TO_MC 10000000 f0 f0 false))
                  (vt_b_rev_del (flight_params (ratio 3 4) f0 0 (of_Z 10)))
              = true) by (vm_compute; reflexivity).
  split; [exact (idle_base_frame B32.ops)|].
  split; [reflexivity|]. split; [reflexivity|]. split; [reflexivity|].
  split; [exact T|].
  split; [exact (proj2 (proj1 H eq_refl T))|vm_compute; reflexivity].
Defined.

End Binary32Flights.

(* ================================================================== *)
(** * The scheduler: more of its behaviour                              *)
(* ================================================================== *)

Section SchedulerBehaviour.

Context {FO : FloatOps} {LIB : Px4Lib FO} {BASE : VtolTypeBase FO LIB}.

(** Every path of the scheduler, on an object given by its fields. *)
Ltac scheduler_paths P I s :=
  unfold update_vtol_state;
  destruct s as [m ts wr wp wy wt pt ro fs tf vm bm sp fl spo qc dv]; cbn;
  destruct fs, (is_fixed_wing_requested I), m; cbn;
  try destruct (transition_to_fw P I _); cbn;
  try destruct (can_transition_on_ground I
                || exit_backtransition_speed_condition P I || _); cbn.

(** X1.  After every call of the scheduler the four mc weights hold one
    value, whatever they held before. *)
Theorem scheduler_weights_equal (P : Params) (I : Inputs) (s : Standard) :
  weights_equal (update_vtol_state P I s).
Proof.
  unfold weights_equal. scheduler_paths P I s; auto.
Qed.

(** X2.  Without the failsafe the scheduler moves along the edges of the
    flight-mode graph only: it never goes from the hover to fixed-wing
    flight or back without a transition in between, never from a front
    transition into a back transition, and never from fixed-wing flight
    into a front transition. *)
Theorem scheduler_allowed_steps (P : Params) (I : Inputs) (s : Standard) :
  vtol_transition_failsafe s = false ->
  allowed_step (flight_mode s) (flight_mode (update_vtol_state P I s)) = true.
Proof.
  intros Hfs. revert Hfs. scheduler_paths P I s; intros Hfs;
    reflexivity || discriminate Hfs.
Qed.

(** X3.  [transition_start] is set to the time of the call exactly on the
    calls that enter a transition from another mode; every other call
    leaves it. *)
Theorem transition_start_on_entry (P : Params) (I : Inputs) (s : Standard) :
  transition_start (update_vtol_state P I s) =
  if in_transition (update_vtol_state P I s)
     && negb (mode_eqb (flight_mode (update_vtol_state P I s)) (flight_mode s))
  then hrt_absolute_time I
  else transition_start s.
Proof.
  unfold in_transition. scheduler_paths P I s; reflexivity.
Qed.

(** X4.  The coarse mode published to the outer controller always belongs
    to the flight mode the call ends in. *)
Theorem scheduler_coarse_mode (P : Params) (I : Inputs) (s : Standard) :
  vtol_mode_ (update_vtol_state P I s) =
  coarse_mode (flight_mode (update_vtol_state P I s)).
Proof.
  scheduler_paths P I s; reflexivity.
Qed.

(** X5.  The scheduler never touches the attitude setpoint, the slew-rate
    limiters, the quadchute log or the blend margin; it never raises the
    pusher throttle (it keeps it or zeroes it); it sets the reverse output
    to nothing but 0 and VT_B_REV_OUT; and it never sets the failsafe
    flag. *)
Theorem scheduler_frame (P : Params) (I : Inputs) (s : Standard) :
  let s' := update_vtol_state P I s in
  v_att_sp s' = v_att_sp s /\
  flaps_setpoint_with_slewrate s' = flaps_setpoint_with_slewrate s /\
  spoiler_setpoint_with_slewrate s' = spoiler_setpoint_with_slewrate s /\
  quadchute s' = quadchute s /\
  divisions s' = divisions s /\
  airspeed_trans_blend_margin s' = airspeed_trans_blend_margin s /\
  (pusher_throttle s' = pusher_throttle s \/ pusher_throttle s' = f0) /\
  (reverse_output s' = reverse_output s \/ reverse_output s' = f0 \/
   reverse_output s' = vt_b_rev_out P) /\
  (vtol_transition_failsafe s = false -> vtol_transition_failsafe s' = false).
Proof.
  cbv zeta. scheduler_paths P I s; repeat split; auto; discriminate.
Qed.

Lemma run_scheduler_cons (P : Params) (I : Inputs) (calls : list Inputs)
  (s : Standard) :
  run_scheduler P (I :: calls) s = run_scheduler P calls (update_vtol_state P I s).
Proof. reflexivity. Qed.

Lemma run_scheduler_snoc (P : Params) (I : Inputs) (calls : list Inputs)
  (s : Standard) :
  run_scheduler P (calls ++ [I]) s = update_vtol_state P I (run_scheduler P calls s).
Proof. unfold run_scheduler. rewrite fold_left_app. reflexivity. Qed.

(** X6.  The failsafe latches: over any number of calls during which the
    pilot keeps asking for fixed-wing flight, the flag stays set, and after
    the first of them the object is in [MC_MODE] with the pusher throttle
    and the reverse output at 0. *)
Theorem failsafe_latched (P : Params) (calls : list Inputs) (s : Standard) :
  vtol_transition_failsafe s = true ->
  Forall (fun I => is_fixed_wing_requested I = true) calls ->
  let s' := run_scheduler P calls s in
  vtol_transition_failsafe s' = true /\
  (calls <> [] ->
   flight_mode s' = vtol_mode.MC_MODE /\
   pusher_throttle s' = f0 /\ reverse_output s' = f0).
Proof.
  intros Hfs Hall. cbv zeta.
  induction calls as [|I calls IH] using rev_ind.
  - split; [exact Hfs|]. intros Hne. now contradiction Hne.
  - apply Forall_app in Hall. destruct Hall as [Hall HI].
    inversion HI as [|? ? Hreq _]; subst.
    destruct (IH Hall) as [Hfs' _]. rewrite run_scheduler_snoc.
    set (s1 := run_scheduler P calls s) in *.
    split.
    + unfold update_vtol_state. rewrite Hfs', Hreq.
      destruct s1; cbn in *. exact Hfs'.
    + intros _. unfold update_vtol_state. rewrite Hfs', Hreq.
      destruct s1; cbn. auto.
Qed.

(** X7.  The hover is stable: from [MC_MODE] without failsafe, over any
    number of calls during which fixed-wing flight is not requested, the
    object stays in [MC_MODE] with its pusher throttle and transition start
    untouched, and after the first of them the four weights are 1 and the
    reverse output is 0. *)
Theorem hover_is_stable (P : Params) (calls : list Inputs) (s : Standard) :
  flight_mode s = vtol_mode.MC_MODE ->
  vtol_transition_failsafe s = false ->
  Forall (fun I => is_fixed_wing_requested I = false) calls ->
  let s' := run_scheduler P calls s in
  flight_mode s' = vtol_mode.MC_MODE /\
  vtol_transition_failsafe s' = false /\
  pusher_throttle s' = pusher_throttle s /\
  transition_start s' = transition_start s /\
  (calls <> [] ->
   mc_roll_weight s' = f1 /\ mc_pitch_weight s' = f1 /\
   mc_yaw_weight s' = f1 /\ mc_throttle_weight s' = f1 /\
   reverse_output s' = f0).
Proof.
  intros Hm Hfs Hall. cbv zeta.
  induction calls as [|I calls IH] using rev_ind.
  - repeat split; auto; congruence.
  - apply Forall_app in Hall. destruct Hall as [Hall HI].
    inversion HI as [|? ? Hreq _]; subst.
    destruct (IH Hall) as (Hm' & Hfs' & Hp & Hts & _).
    rewrite run_scheduler_snoc.
    set (s1 := run_scheduler P calls s) in *.
    unfold update_vtol_state. rewrite Hfs', Hreq, Hm'.
    destruct s1; cbn in *. subst. repeat split; auto.
Qed.

End SchedulerBehaviour.

(* ================================================================== *)
(** * The transition controller: more of its behaviour                  *)
(* ================================================================== *)

Section ControllerBehaviour.

Context {FO : FloatOps} {LIB : Px4Lib FO} {BASE : VtolTypeBase FO LIB}.

Lemma synthesise_fresh_value (I : Inputs) (s : Standard) :
  virtual_setpoints_stale I = false ->
  synthesise_att_sp I s = Some (set_v_att_sp (synthesised_att_sp I) s).
Proof.
  unfold virtual_setpoints_stale, synthesise_att_sp, synthesised_att_sp.
  destruct (flag_control_climb_rate_enabled I); intros ->; reflexivity.
Qed.

Lemma update_transition_state_fresh_value (P : Params) (I : Inputs) (s : Standard) :
  virtual_setpoints_stale I = false ->
  update_transition_state P I s =
  transition_schedules P I (time_since_trans_start I s)
    (set_v_att_sp (synthesised_att_sp I) (VtolType_update_transition_state I s)).
Proof.
  intros Hfresh. unfold update_transition_state.
  rewrite synthesise_fresh_value by assumption. reflexivity.
Qed.

(** The attitude setpoint and the quadchute log after the schedules are
    those the branch of the flight mode left. *)
Lemma transition_schedules_keep_sp (P : Params) (I : Inputs) (t : float) (s : Standard) :
  let b := match flight_mode s with
           | vtol_mode.TRANSITION_TO_FW => front_transition P I t s
           | vtol_mode.TRANSITION_TO_MC => back_transition P I t s
           | _ => (s, f1)
           end in
  v_att_sp (transition_schedules P I t s) = v_att_sp (fst b) /\
  quadchute (transition_schedules P I t s) = quadchute (fst b).
Proof.
  unfold transition_schedules.
  destruct (match flight_mode s with
            | vtol_mode.TRANSITION_TO_FW => front_transition P I t s
            | vtol_mode.TRANSITION_TO_MC => back_transition P I t s
            | _ => (s, f1)
            end) as [s1 w1].
  destruct s1; cbn. auto.
Qed.

(** What the branch of the front transition leaves in the object. *)
Lemma front_transition_fields (P : Params) (I : Inputs) (t : float) (s : Standard) :
  let r := fst (front_transition P I t s) in
  pusher_throttle r =
    (if fle (vt_psher_rmp_dt P) f0 then vt_f_trans_thr P
     else if fle (pusher_throttle s) (vt_f_trans_thr P)
          then fdiv (fmul (vt_f_trans_thr P) t) (vt_psher_rmp_dt P)
          else pusher_throttle s) /\
  v_att_sp r =
    rebuild_q_d
      (set_pitch_body
         (fmul (radians (fw_psp_off P))
               (fsub f1 (front_weight_schedule true P I t))) (v_att_sp s)) /\
  quadchute r =
    (if transition_timed_out P t then [TransitionTimeout] else [])
    ++ quadchute s.
Proof.
  unfold front_transition, front_blend, front_pusher_ramp, note_div,
    front_weight_schedule, transition_timed_out.
  destruct s; cbn.
  destruct (fle (vt_psher_rmp_dt P) f0); [|destruct (fle _ (vt_f_trans_thr P))];
    cbn;
    (destruct (fgt _ f0 && PX4_ISFINITE _ && fgt _ f0 && fge _ _ && fgt t _);
     [|destruct (negb _ || negb _)]); cbn;
    destruct (fgt (vt_trans_timeout P) FLT_EPSILON); cbn;
    try destruct (fgt t (vt_trans_timeout P)); cbn; auto.
Qed.

(** What the branch of the back transition leaves in the object, and its
    local [mc_weight]. *)
Lemma back_transition_fields (P : Params) (I : Inputs) (t : float) (s : Standard) :
  v_att_sp (fst (back_transition P I t s)) =
    rebuild_q_d
      (if flag_control_climb_rate_enabled I
       then set_pitch_body (update_and_get_backtransition_pitch_sp I) (v_att_sp s)
       else v_att_sp s) /\
  quadchute (fst (back_transition P I t s)) = quadchute s /\
  snd (back_transition P I t s) =
    (if fgt (vt_b_trans_ramp P) FLT_EPSILON
     then fdiv t (vt_b_trans_ramp P) else f1).
Proof.
  unfold back_transition, back_pusher_ramp, note_div.
  destruct s; cbn.
  destruct (flag_control_climb_rate_enabled I); cbn;
    destruct (fge t (vt_b_rev_del P)); cbn;
    destruct (fgt (vt_b_trans_ramp P) FLT_EPSILON); cbn; auto.
Qed.

Lemma set_v_att_sp_fields (a : vehicle_attitude_setpoint_s) (s : Standard) :
  v_att_sp (set_v_att_sp a s) = a /\
  pusher_throttle (set_v_att_sp a s) = pusher_throttle s /\
  quadchute (set_v_att_sp a s) = quadchute s.
Proof. destruct s; cbn. auto. Qed.

(** X8.  The transition controller keeps the four mc weights at one value:
    if they agree before a call they agree after it, whether the call runs
    its schedules or returns early. *)
Theorem controller_weights_equal (P : Params) (I : Inputs) (s : Standard) :
  base_transition_frame ->
  weights_equal s ->
  weights_equal (update_transition_state P I s).
Proof.
  intros Hframe (Hp & Hy & Ht). unfold weights_equal.
  destruct (virtual_setpoints_stale I) eqn:Hstale.
  - unfold update_transition_state. rewrite synthesise_stale by assumption.
    destruct (Hframe I s) as (_ & _ & W1 & W2 & W3 & W4 & _).
    rewrite W1, W2, W3, W4. auto.
  - rewrite update_transition_state_fresh_value by assumption.
    match goal with
    | |- context [transition_schedules P I ?t ?s1] =>
        destruct (transition_schedules_weights P I t s1) as (W1 & W2 & W3 & W4)
    end.
    rewrite W1, W2, W3, W4. auto.
Qed.

Lemma constrain_unit_bounds {ORD : FloatOrderLaws FO} (v : float) :
  flt (constrain v f0 f1) f0 = false /\ fgt (constrain v f0 f1) f1 = false.
Proof.
  unfold constrain, fgt.
  destruct (flt v f0) eqn:E0.
  - split; [apply flt_irrefl|apply flt_one_zero].
  - destruct (flt f1 v) eqn:E1.
    + split; [apply flt_one_zero|apply flt_irrefl].
    + auto.
Qed.

(** X9.  After a call that runs the schedules, in any flight mode, no mc
    weight is below 0 and none is above 1. *)
Theorem controller_weights_bounded {ORD : FloatOrderLaws FO}
  (P : Params) (I : Inputs) (s : Standard) :
  virtual_setpoints_stale I = false ->
  let s' := update_transition_state P I s in
  (flt (mc_roll_weight s') f0 = false /\ fgt (mc_roll_weight s') f1 = false) /\
  (flt (mc_pitch_weight s') f0 = false /\ fgt (mc_pitch_weight s') f1 = false) /\
  (flt (mc_yaw_weight s') f0 = false /\ fgt (mc_yaw_weight s') f1 = false) /\
  (flt (mc_throttle_weight s') f0 = false /\
   fgt (mc_throttle_weight s') f1 = false).
Proof.
  intros Hfresh. cbv zeta.
  rewrite update_transition_state_fresh_value by assumption.
  match goal with
  | |- context [transition_schedules P I ?t ?s1] =>
      destruct (transition_schedules_weights P I t s1) as (W1 & W2 & W3 & W4)
  end.
  rewrite W1, W2, W3, W4.
  repeat split; apply constrain_unit_bounds.
Qed.

(** X10.  The pusher ramp of the front transition, on a call that runs
    the schedules: with VT_PSHER_RMP_DT at or below 0 the throttle is set to
    VT_F_TRANS_THR at once; otherwise it follows
    [VT_F_TRANS_THR * t / VT_PSHER_RMP_DT] as long as it has not passed the
    target, and once it is above the target the call leaves it where it
    is, so it is never brought back down. *)
Theorem front_pusher_ramp_cases (P : Params) (I : Inputs) (s : Standard) :
  base_transition_frame ->
  flight_mode s = vtol_mode.TRANSITION_TO_FW ->
  virtual_setpoints_stale I = false ->
  let p := pusher_throttle (update_transition_state P I s) in
  (fle (vt_psher_rmp_dt P) f0 = true -> p = vt_f_trans_thr P) /\
  (fle (vt_psher_rmp_dt P) f0 = false ->
   fle (pusher_throttle s) (vt_f_trans_thr P) = true ->
   p = fdiv (fmul (vt_f_trans_thr P) (time_since_trans_start I s))
            (vt_psher_rmp_dt P)) /\
  (fle (vt_psher_rmp_dt P) f0 = false ->
   fle (pusher_throttle s) (vt_f_trans_thr P) = false ->
   p = pusher_throttle s).
Proof.
  intros Hframe Hm Hfresh. cbv zeta.
  rewrite update_transition_state_fresh_value by assumption.
  destruct (Hframe I s) as (Fm & _ & _ & _ & _ & _ & Fp & _).
  set (s1 := set_v_att_sp (synthesised_att_sp I)
               (VtolType_update_transition_state I s)).
  destruct (transition_schedules_keep P I (time_since_trans_start I s) s1)
    as [Hp _].
  assert (Hm1 : flight_mode s1 = vtol_mode.TRANSITION_TO_FW).
  { unfold s1. rewrite set_v_att_sp_flight_mode. congruence. }
  assert (Hp1 : pusher_throttle s1 = pusher_throttle s).
  { unfold s1. destruct (set_v_att_sp_fields (synthesised_att_sp I)
                           (VtolType_update_transition_state I s))
      as (_ & -> & _). exact Fp. }
  rewrite Hp, Hm1.
  destruct (front_transition_fields P I (time_since_trans_start I s) s1)
    as (-> & _). rewrite Hp1.
  repeat split; intros H1; rewrite H1; try reflexivity; intros H2;
    rewrite H2; reflexivity.
Qed.

(** X11.  A call that runs the schedules in the front transition fires
    one [TransitionTimeout] quadchute when VT_TRANS_TIMEOUT is above
    [FLT_EPSILON] and the time since the start of the transition exceeds
    it, and none otherwise; in the back transition, and on a call that
    returns early, the file fires none.  (The log is compared with the one
    the base-class update left.) *)
Theorem quadchute_on_timeout_only (P : Params) (I : Inputs) (s : Standard) :
  base_transition_frame ->
  let s1 := VtolType_update_transition_state I s in
  let s' := update_transition_state P I s in
  (virtual_setpoints_stale I = true -> quadchute s' = quadchute s1) /\
  (virtual_setpoints_stale I = false ->
   flight_mode s = vtol_mode.TRANSITION_TO_MC -> quadchute s' = quadchute s1) /\
  (virtual_setpoints_stale I = false ->
   flight_mode s = vtol_mode.TRANSITION_TO_FW ->
   quadchute s' =
   (if transition_timed_out P (time_since_trans_start I s)
    then [TransitionTimeout] else []) ++ quadchute s1).
Proof.
  intros Hframe. cbv zeta.
  destruct (Hframe I s) as (Fm & _).
  split; [|split].
  - intros Hstale. unfold update_transition_state.
    rewrite synthesise_stale by assumption. reflexivity.
  - intros Hfresh Hm.
    rewrite update_transition_state_fresh_value by assumption.
    match goal with
    | |- context [transition_schedules P I ?t ?s1] =>
        destruct (transition_schedules_keep_sp P I t s1) as [_ Hq]
    end.
    rewrite Hq, set_v_att_sp_flight_mode, Fm, Hm.
    destruct (back_transition_fields P I (time_since_trans_start I s)
                (set_v_att_sp (synthesised_att_sp I)
                   (VtolType_update_transition_state I s))) as (_ & -> & _).
    apply set_v_att_sp_fields.
  - intros Hfresh Hm.
    rewrite update_transition_state_fresh_value by assumption.
    match goal with
    | |- context [transition_schedules P I ?t ?s1] =>
        destruct (transition_schedules_keep_sp P I t s1) as [_ Hq]
    end.
    rewrite Hq, set_v_att_sp_flight_mode, Fm, Hm.
    destruct (front_transition_fields P I (time_since_trans_start I s)
                (set_v_att_sp (synthesised_att_sp I)
                   (VtolType_update_transition_state I s))) as (_ & _ & ->).
    f_equal. apply set_v_att_sp_fields.
Qed.

Lemma rebuild_q_d_consistent (a : vehicle_attitude_setpoint_s) :
  q_d (rebuild_q_d a) =
  Quatf_of_Eulerf (roll_body (rebuild_q_d a)) (pitch_body (rebuild_q_d a))
                  (yaw_body (rebuild_q_d a)).
Proof. reflexivity. Qed.

(** The attitude setpoint after a call that runs the schedules in a
    transition. *)
Lemma transition_att_sp (P : Params) (I : Inputs) (s : Standard) :
  base_transition_frame ->
  virtual_setpoints_stale I = false ->
  (flight_mode s = vtol_mode.TRANSITION_TO_FW ->
   v_att_sp (update_transition_state P I s) =
   rebuild_q_d
     (set_pitch_body
        (fmul (radians (fw_psp_off P))
              (fsub f1 (front_weight_schedule true P I (time_since_trans_start I s))))
        (synthesised_att_sp I))) /\
  (flight_mode s = vtol_mode.TRANSITION_TO_MC ->
   v_att_sp (update_transition_state P I s) =
   rebuild_q_d
     (if flag_control_climb_rate_enabled I
      then set_pitch_body (update_and_get_backtransition_pitch_sp I)
                          (synthesised_att_sp I)
      else synthesised_att_sp I)).
Proof.
  intros Hframe Hfresh.
  destruct (Hframe I s) as (Fm & _).
  rewrite update_transition_state_fresh_value by assumption.
  set (s1 := set_v_att_sp (synthesised_att_sp I)
               (VtolType_update_transition_state I s)).
  destruct (transition_schedules_keep_sp P I (time_since_trans_start I s) s1)
    as [Ha _].
  assert (Hm1 : flight_mode s1 = flight_mode s).
  { unfold s1. rewrite set_v_att_sp_flight_mode. exact Fm. }
  assert (Hsp : v_att_sp s1 = synthesised_att_sp I).
  { unfold s1. apply set_v_att_sp_fields. }
  rewrite Ha, Hm1. split; intros ->.
  - destruct (front_transition_fields P I (time_since_trans_start I s) s1)
      as (_ & -> & _). rewrite Hsp. reflexivity.
  - destruct (back_transition_fields P I (time_since_trans_start I s) s1)
      as (-> & _). rewrite Hsp. reflexivity.
Qed.

(** X12.  After a call that runs the schedules in either transition, the
    quaternion [q_d] of the attitude setpoint is the one built from the
    roll, pitch and yaw that the setpoint holds. *)
Theorem transition_q_d_consistent (P : Params) (I : Inputs) (s : Standard) :
  base_transition_frame ->
  in_transition s = true ->
  virtual_setpoints_stale I = false ->
  let a := v_att_sp (update_transition_state P I s) in
  q_d a = Quatf_of_Eulerf (roll_body a) (pitch_body a) (yaw_body a).
Proof.
  intros Hframe Hin Hfresh. cbv zeta.
  destruct (transition_att_sp P I s Hframe Hfresh) as [Hf Hb].
  unfold in_transition in Hin.
  destruct (flight_mode s); try discriminate Hin.
  - rewrite Hf by reflexivity. apply rebuild_q_d_consistent.
  - rewrite Hb by reflexivity. apply rebuild_q_d_consistent.
Qed.

(** X13.  The attitude setpoint of the front transition, on a call that
    runs the schedules: the roll is the roll of the fixed-wing virtual
    setpoint; the pitch is the pitch offset FW_PSP_OFF in radians times one
    minus the mc weight before its clamp; the yaw is that of the
    multicopter virtual setpoint when the climb rate is controlled and that
    of the fixed-wing one otherwise. *)
Theorem front_transition_att_sp (P : Params) (I : Inputs) (s : Standard) :
  base_transition_frame ->
  flight_mode s = vtol_mode.TRANSITION_TO_FW ->
  virtual_setpoints_stale I = false ->
  let a := v_att_sp (update_transition_state P I s) in
  roll_body a = roll_body (fw_virtual_att_sp I) /\
  pitch_body a =
    fmul (radians (fw_psp_off P))
         (fsub f1 (front_weight_schedule true P I (time_since_trans_start I s))) /\
  yaw_body a =
    yaw_body (if flag_control_climb_rate_enabled I
              then mc_virtual_att_sp I else fw_virtual_att_sp I).
Proof.
  intros Hframe Hm Hfresh. cbv zeta.
  rewrite (proj1 (transition_att_sp P I s Hframe Hfresh) Hm).
  unfold synthesised_att_sp.
  destruct (flag_control_climb_rate_enabled I); cbn; auto.
Qed.

(** X14.  The attitude setpoint of the back transition, on a call that
    runs the schedules.  With the climb rate controlled the pitch is the
    deceleration pitch of the base class and the thrust is the thrust of
    the multicopter virtual setpoint; otherwise the pitch is that of the
    fixed-wing virtual setpoint and the Z thrust is minus its X thrust.  The
    roll is that of the fixed-wing virtual setpoint in both cases. *)
Theorem back_transition_att_sp (P : Params) (I : Inputs) (s : Standard) :
  base_transition_frame ->
  flight_mode s = vtol_mode.TRANSITION_TO_MC ->
  virtual_setpoints_stale I = false ->
  let a := v_att_sp (update_transition_state P I s) in
  roll_body a = roll_body (fw_virtual_att_sp I) /\
  (flag_control_climb_rate_enabled I = true ->
   pitch_body a = update_and_get_backtransition_pitch_sp I /\
   thrust_body a = thrust_body (mc_virtual_att_sp I)) /\
  (flag_control_climb_rate_enabled I = false ->
   pitch_body a = pitch_body (fw_virtual_att_sp I) /\
   v0 (thrust_body a) = v0 (thrust_body (fw_virtual_att_sp I)) /\
   v2 (thrust_body a) = fneg (v0 (thrust_body (fw_virtual_att_sp I)))).
Proof.
  intros Hframe Hm Hfresh. cbv zeta.
  rewrite (proj2 (transition_att_sp P I s Hframe Hfresh) Hm).
  unfold synthesised_att_sp.
  destruct (flag_control_climb_rate_enabled I); cbn;
    repeat split; intros; auto; discriminate.
Qed.

(** X15.  The four mc weights of the back transition, on a call that runs
    the schedules: the time since the start of the transition divided by
    VT_B_TRANS_RAMP and clamped to [0, 1] when VT_B_TRANS_RAMP is above
    [FLT_EPSILON], and 1 otherwise. *)
Theorem back_weight_ramp (P : Params) (I : Inputs) (s : Standard) :
  base_transition_frame ->
  flight_mode s = vtol_mode.TRANSITION_TO_MC ->
  virtual_setpoints_stale I = false ->
  let w := constrain
             (if fgt (vt_b_trans_ramp P) FLT_EPSILON
              then fdiv (time_since_trans_start I s) (vt_b_trans_ramp P)
              else f1) f0 f1 in
  let s' := update_transition_state P I s in
  mc_roll_weight s' = w /\ mc_pitch_weight s' = w /\
  mc_yaw_weight s' = w /\ mc_throttle_weight s' = w.
Proof.
  intros Hframe Hm Hfresh. cbv zeta.
  destruct (Hframe I s) as (Fm & _).
  rewrite update_transition_state_fresh_value by assumption.
  set (s1 := set_v_att_sp (synthesised_att_sp I)
               (VtolType_update_transition_state I s)).
  pose proof (transition_schedules_weights P I (time_since_trans_start I s) s1)
    as W. cbv zeta in W.
  assert (Hm1 : flight_mode s1 = vtol_mode.TRANSITION_TO_MC).
  { unfold s1. rewrite set_v_att_sp_flight_mode. congruence. }
  rewrite Hm1 in W.
  destruct (back_transition_fields P I (time_since_trans_start I s) s1)
    as (_ & _ & Hw). rewrite Hw in W. exact W.
Qed.

(** X16.  During the first second of the clock the unsigned difference
    [now - 1_s] wraps around: whatever the age of the virtual setpoints,
    a fixed-wing setpoint stamped no later than the call makes the call
    return right after the base-class update. *)
Theorem first_second_always_stale (P : Params) (I : Inputs) (s : Standard) :
  0 <= hrt_absolute_time I < one_second ->
  0 <= sp_timestamp (fw_virtual_att_sp I) <= hrt_absolute_time I ->
  update_transition_state P I s = VtolType_update_transition_state I s.
Proof.
  intros Hnow Hts. unfold update_transition_state.
  rewrite synthesise_stale; [reflexivity|].
  unfold virtual_setpoints_stale.
  assert (E : (sp_timestamp (fw_virtual_att_sp I)
               <? u64 (hrt_absolute_time I - one_second)) = true).
  { apply Z.ltb_lt. unfold u64, one_second in *.
    change (2 ^ 64) with 18446744073709551616.
    replace (hrt_absolute_time I - 1000000)
      with ((hrt_absolute_time I - 1000000 + 18446744073709551616)
            + ((-1) * 18446744073709551616)) by lia.
    rewrite Z.mod_add by lia.
    rewrite Z.mod_small by lia. lia. }
  rewrite E. rewrite orb_true_r.
  destruct (flag_control_climb_rate_enabled I); reflexivity.
Qed.

(** X17.  From the first second of the clock on, a virtual setpoint is
    stale when it is more than one second old, and one of exactly one
    second is still fresh: with both virtual setpoints stamped at
    [now - 1_s] or later the call runs its schedules, and with the
    fixed-wing one stamped before [now - 1_s] it returns early. *)
Theorem freshness_boundary (P : Params) (I : Inputs) (s : Standard) :
  one_second <= hrt_absolute_time I < 2 ^ 64 ->
  (hrt_absolute_time I - one_second <= sp_timestamp (mc_virtual_att_sp I) ->
   hrt_absolute_time I - one_second <= sp_timestamp (fw_virtual_att_sp I) ->
   update_transition_state P I s =
   transition_schedules P I (time_since_trans_start I s)
     (set_v_att_sp (synthesised_att_sp I)
        (VtolType_update_transition_state I s))) /\
  (sp_timestamp (fw_virtual_att_sp I) < hrt_absolute_time I - one_second ->
   update_transition_state P I s = VtolType_update_transition_state I s).
Proof.
  intros Hnow.
  assert (E : u64 (hrt_absolute_time I - one_second)
              = hrt_absolute_time I - one_second).
  { unfold u64. apply Z.mod_small. unfold one_second in *. lia. }
  split.
  - intros Hmc Hfw. apply update_transition_state_fresh_value.
    unfold virtual_setpoints_stale. rewrite E.
    apply Z.ltb_ge in Hmc. apply Z.ltb_ge in Hfw. rewrite Hmc, Hfw.
    destruct (flag_control_climb_rate_enabled I); reflexivity.
  - intros Hfw. unfold update_transition_state.
    rewrite synthesise_stale; [reflexivity|].
    unfold virtual_setpoints_stale. rewrite E.
    apply Z.ltb_lt in Hfw. rewrite Hfw, orb_true_r.
    destruct (flag_control_climb_rate_enabled I); reflexivity.
Qed.

End ControllerBehaviour.

(* ================================================================== *)
(** * The mixer and the parameter update: more of their behaviour       *)
(* ================================================================== *)

Section MixerBehaviour.

Context {FO : FloatOps} {LIB : Px4Lib FO} {BASE : VtolTypeBase FO LIB}.

(** X18.  The mixer never writes the flaps, spoilers and airbrakes
    channels of the MC group nor the landing-gear channel of the FW group:
    in every flight mode they keep the value they had. *)
Theorem mixer_untouched_channels (P : Params) (I : Inputs) (s : Standard) (o : Outputs) :
  let mc := control (actuators_out_0 o) in
  let fw := control (actuators_out_1 o) in
  let mc' := control (actuators_out_0 (fill_actuator_outputs P I s o)) in
  let fw' := control (actuators_out_1 (fill_actuator_outputs P I s o)) in
  INDEX_FLAPS mc' = INDEX_FLAPS mc /\
  INDEX_SPOILERS mc' = INDEX_SPOILERS mc /\
  INDEX_AIRBRAKES mc' = INDEX_AIRBRAKES mc /\
  INDEX_LANDING_GEAR fw' = INDEX_LANDING_GEAR fw.
Proof.
  cbn. unfold mix_mc_out, mix_fw_out. destruct (flight_mode s); cbn; auto.
Qed.

(** X19.  Publishing twice from the same object and inputs is publishing
    once: what the mixer keeps of the previous outputs are only the
    channels it does not write. *)
Theorem mixer_idempotent (P : Params) (I : Inputs) (s : Standard) (o : Outputs) :
  fill_actuator_outputs P I s (fill_actuator_outputs P I s o) =
  fill_actuator_outputs P I s o.
Proof.
  unfold fill_actuator_outputs, mix_mc_out, mix_fw_out.
  destruct (flight_mode s); reflexivity.
Qed.

(** X20.  The torque and thrust setpoints that the mixer publishes, in
    terms of the mixer table: torque 0 is the roll, pitch and yaw of the MC
    group and torque 1 those of the FW group; thrust 0 carries the throttle
    of the FW group on X and minus the throttle of the MC group on Z;
    thrust 1 is zero.  Each of the four is stamped with its own reading of
    the clock, in the order torque 0, torque 1, thrust 0, thrust 1, and the
    two control vectors share the reading after those; each record carries
    the sample time of the input of its group. *)
Theorem mixer_setpoints (P : Params) (I : Inputs) (s : Standard) (o : Outputs) :
  let m := mixer_table (flight_mode s)
             (control (actuators_mc_in I)) (control (actuators_fw_in I))
             (mc_roll_weight s) (mc_pitch_weight s) (mc_yaw_weight s)
             (mc_throttle_weight s) (pusher_throttle s) (reverse_output s)
             (SlewRate_getState (flaps_setpoint_with_slewrate s))
             (SlewRate_getState (spoiler_setpoint_with_slewrate s))
             (vt_elev_mc_lock P) in
  let o' := fill_actuator_outputs P I s o in
  let mc_sample := ac_timestamp_sample (actuators_mc_in I) in
  let fw_sample := ac_timestamp_sample (actuators_fw_in I) in
  torque_setpoint_0 o' =
    mkSetpoint (hrt_absolute_time I) mc_sample
      (mkVector3f (mc_roll m) (mc_pitch m) (mc_yaw m)) /\
  torque_setpoint_1 o' =
    mkSetpoint (hrt_absolute_time_again I 0) fw_sample
      (mkVector3f (fw_roll m) (fw_pitch m) (fw_yaw m)) /\
  thrust_setpoint_0 o' =
    mkSetpoint (hrt_absolute_time_again I 1) mc_sample
      (mkVector3f (fw_throttle m) f0 (fneg (mc_throttle m))) /\
  thrust_setpoint_1 o' =
    mkSetpoint (hrt_absolute_time_again I 2) fw_sample (mkVector3f f0 f0 f0) /\
  ac_timestamp (actuators_out_0 o') = hrt_absolute_time_again I 3 /\
  ac_timestamp (actuators_out_1 o') = hrt_absolute_time_again I 3 /\
  ac_timestamp_sample (actuators_out_0 o') = mc_sample /\
  ac_timestamp_sample (actuators_out_1 o') = fw_sample.
Proof.
  cbv zeta. unfold fill_actuator_outputs, mix_mc_out, mix_fw_out, mixer_table.
  destruct (flight_mode s); cbn; auto 10.
Qed.

(** X21.  [parameters_update] changes VT_B_TRANS_RAMP alone: it keeps it
    when it is below VT_B_TRANS_DUR and replaces it by VT_B_TRANS_DUR in
    every other case, a NaN included.  Afterwards VT_B_TRANS_RAMP is not
    above VT_B_TRANS_DUR, and a second update changes nothing. *)
Theorem parameters_update_clamps {ORD : FloatOrderLaws FO} (P : Params) :
  let P' := parameters_update P in
  (flt (vt_b_trans_ramp P) (vt_b_trans_dur P) = true ->
   vt_b_trans_ramp P' = vt_b_trans_ramp P) /\
  (flt (vt_b_trans_ramp P) (vt_b_trans_dur P) = false ->
   vt_b_trans_ramp P' = vt_b_trans_dur P) /\
  vt_b_trans_dur P' = vt_b_trans_dur P /\
  fgt (vt_b_trans_ramp P') (vt_b_trans_dur P') = false /\
  parameters_update P' = P' /\
  set_vt_b_trans_ramp (vt_b_trans_ramp P) P' = P.
Proof.
  cbv zeta. unfold parameters_update, fmin, fgt.
  destruct P as [a b c d e dur ramp g h i j k l m]; cbn.
  destruct (flt ramp dur) eqn:E; cbn.
  - rewrite E. rewrite (flt_asym _ _ E). repeat split; intros; congruence.
  - rewrite !flt_irrefl. repeat split; intros; congruence.
Qed.

End MixerBehaviour.

(* ================================================================== *)
(** * The order laws hold in binary32                                    *)
(* ================================================================== *)

Lemma B32_flt_irrefl (a : spec_float) : SFltb a a = false.
Proof.
  unfold SFltb.
  destruct a as [sa|sa| |sa ma ea]; cbn; try destruct sa; cbn; try reflexivity.
  - rewrite Z.compare_refl, Pos.compare_cont_spec, Pos.compare_refl.
    reflexivity.
  - rewrite Z.compare_refl, Pos.compare_cont_spec, Pos.compare_refl.
    reflexivity.
Qed.

Lemma B32_flt_asym (a b : spec_float) :
  SFltb a b = true -> SFltb b a = false.
Proof.
  unfold SFltb.
  destruct a as [sa|sa| |sa ma ea], b as [sb|sb| |sb mb eb]; cbn;
    try destruct sa; try destruct sb; cbn; try congruence.
  - rewrite (Z.compare_antisym ea eb), !Pos.compare_cont_spec.
    rewrite (Pos.compare_antisym ma mb).
    destruct (ea ?= eb); cbn; try congruence.
    destruct (ma ?= mb)%positive; cbn; congruence.
  - rewrite (Z.compare_antisym ea eb), !Pos.compare_cont_spec.
    rewrite (Pos.compare_antisym ma mb).
    destruct (ea ?= eb); cbn; try congruence.
    destruct (ma ?= mb)%positive; cbn; congruence.
Qed.

#[local] Instance B32_order_laws : FloatOrderLaws B32.ops.
Proof.
  split; [exact B32_flt_irrefl | exact B32_flt_asym | reflexivity].
Qed.

(* ================================================================== *)
(** * More concrete runs, in binary32                                   *)
(* ================================================================== *)

Section Binary32Behaviour.

#[local] Existing Instance B32.ops.
#[local] Existing Instance StdLib.
#[local] Existing Instance IdleBase.

(** A back transition abandoned for a front transition. *)
Lemma scheduler_allowed_steps_witness :
  vtol_transition_failsafe back_object = false /\
  flight_mode (update_vtol_state front_params (front_call 1000000) back_object)
  = vtol_mode.TRANSITION_TO_FW /\
  allowed_step (flight_mode back_object)
    (flight_mode (update_vtol_state front_params (front_call 1000000) back_object))
  = true.
Proof.
  split; [reflexivity|]. split; [reflexivity|].
  exact (scheduler_allowed_steps front_params (front_call 1000000) back_object
           eq_refl).
Defined.

(** Two calls with the failsafe set while fixed-wing flight stays
    requested. *)
Lemma failsafe_latched_witness :
  let s := flight_object vtol_mode.TRANSITION_TO_FW 0 f1 (ratio 3 8) true in
  let calls := [front_call 1000000; front_call 1004000] in
  vtol_transition_failsafe s = true /\
  Forall (fun I => is_fixed_wing_requested I = true) calls /\
  vtol_transition_failsafe (run_scheduler front_params calls s) = true /\
  flight_mode (run_scheduler front_params calls s) = vtol_mode.MC_MODE.
Proof.
  cbv zeta.
  assert (A : Forall (fun I : Inputs => is_fixed_wing_requested I = true)
                [front_call 1000000; front_call 1004000])
    by (repeat constructor).
  pose proof (failsafe_latched front_params
                [front_call 1000000; front_call 1004000]
                (flight_object vtol_mode.TRANSITION_TO_FW 0 f1 (ratio 3 8) true)
                eq_refl A) as H.
  cbv zeta in H.
  split; [reflexivity|]. split; [exact A|]. split; [exact (proj1 H)|].
  apply (proj2 H). discriminate.
Defined.

(** Two calls in the hover. *)
Lemma hover_is_stable_witness :
  let s := flight_object vtol_mode.MC_MODE 0 (ratio 1 2) f0 false in
  let calls := [back_call 1000000; back_call 1004000] in
  flight_mode s = vtol_mode.MC_MODE /\
  vtol_transition_failsafe s = false /\
  Forall (fun I => is_fixed_wing_requested I = false) calls /\
  flight_mode (run_scheduler front_params calls s) = vtol_mode.MC_MODE /\
  mc_roll_weight (run_scheduler front_params calls s) = f1.
Proof.
  cbv zeta.
  assert (A : Forall (fun I : Inputs => is_fixed_wing_requested I = false)
                [back_call 1000000; back_call 1004000])
    by (repeat constructor).
  pose proof (hover_is_stable front_params
                [back_call 1000000; back_call 1004000]
                (flight_object vtol_mode.MC_MODE 0 (ratio 1 2) f0 false)
                eq_refl eq_refl A) as H.
  cbv zeta in H.
  split; [reflexivity|]. split; [reflexivity|]. split; [exact A|].
  split; [exact (proj1 H)|].
  apply (proj2 (proj2 (proj2 (proj2 H)))). discriminate.
Defined.

(** The stale call at 12.5 s of the front transition. *)
Lemma controller_weights_equal_witness :
  base_transition_frame /\
  weights_equal (fst after_11s) /\
  weights_equal (update_transition_state front_params call_at_12_5s (fst after_11s)).
Proof.
  assert (W : weights_equal (fst after_11s))
    by (vm_compute; repeat split).
  split; [exact (idle_base_frame B32.ops)|]. split; [exact W|].
  exact (controller_weights_equal front_params call_at_12_5s (fst after_11s)
           (idle_base_frame B32.ops) W).
Defined.

(** Five seconds into a front transition. *)
Lemma controller_weights_bounded_witness :
  let s' := update_transition_state front_params (front_call 5000000)
              (front_object (ratio 3 8)) in
  virtual_setpoints_stale (front_call 5000000) = false /\
  flt (mc_roll_weight s') f0 = false /\ fgt (mc_roll_weight s') f1 = false.
Proof.
  cbv zeta.
  pose proof (controller_weights_bounded (ORD := B32_order_laws) front_params
                (front_call 5000000) (front_object (ratio 3 8)) eq_refl) as H.
  cbv zeta in H.
  split; [reflexivity|]. exact (proj1 H).
Defined.

(** Five seconds into a front transition with the pusher throttle already
    at 1.5, above the target 0.75: the call leaves it at 1.5. *)
Lemma front_pusher_ramp_cases_witness :
  base_transition_frame /\
  flight_mode (front_object (ratio 3 2)) = vtol_mode.TRANSITION_TO_FW /\
  virtual_setpoints_stale (front_call 5000000) = false /\
  fle (vt_psher_rmp_dt front_params) f0 = false /\
  fle (pusher_throttle (front_object (ratio 3 2))) (vt_f_trans_thr front_params)
  = false /\
  pusher_throttle (update_transition_state front_params (front_call 5000000)
                     (front_object (ratio 3 2))) = ratio 3 2.
Proof.
  pose proof (front_pusher_ramp_cases front_params (front_call 5000000)
                (front_object (ratio 3 2)) (idle_base_frame B32.ops)
                eq_refl eq_refl) as H.
  cbv zeta in H.
  assert (A : fle (vt_psher_rmp_dt front_params) f0 = false)
    by (vm_compute; reflexivity).
  assert (B : fle (pusher_throttle (front_object (ratio 3 2)))
                  (vt_f_trans_thr front_params) = false)
    by (vm_compute; reflexivity).
  split; [exact (idle_base_frame B32.ops)|].
  split; [reflexivity|]. split; [reflexivity|].
  split; [exact A|]. split; [exact B|].
  exact (proj2 (proj2 H) A B).
Defined.

(** Sixteen seconds into a front transition with VT_TRANS_TIMEOUT = 15 s. *)
Lemma quadchute_on_timeout_only_witness :
  base_transition_frame /\
  virtual_setpoints_stale (front_call 16000000) = false /\
  flight_mode (front_object (ratio 3 4)) = vtol_mode.TRANSITION_TO_FW /\
  quadchute (update_transition_state front_params (front_call 16000000)
               (front_object (ratio 3 4))) = [TransitionTimeout].
Proof.
  pose proof (quadchute_on_timeout_only front_params (front_call 16000000)
                (front_object (ratio 3 4)) (idle_base_frame B32.ops)) as H.
  cbv zeta in H.
  split; [exact (idle_base_frame B32.ops)|].
  split; [reflexivity|]. split; [reflexivity|].
  rewrite (proj2 (proj2 H) eq_refl eq_refl). vm_compute. reflexivity.
Defined.

Lemma transition_q_d_consistent_witness :
  let a := v_att_sp (update_transition_state front_params (front_call 5000000)
                       (front_object (ratio 3 8))) in
  base_transition_frame /\
  in_transition (front_object (ratio 3 8)) = true /\
  virtual_setpoints_stale (front_call 5000000) = false /\
  q_d a = Quatf_of_Eulerf (roll_body a) (pitch_body a) (yaw_body a).
Proof.
  cbv zeta.
  split; [exact (idle_base_frame B32.ops)|].
  split; [reflexivity|]. split; [reflexivity|].
  exact (transition_q_d_consistent front_params (front_call 5000000)
           (front_object (ratio 3 8)) (idle_base_frame B32.ops)
           eq_refl eq_refl).
Defined.

Lemma front_transition_att_sp_witness :
  let a := v_att_sp (update_transition_state front_params (front_call 5000000)
                       (front_object (ratio 3 8))) in
  base_transition_frame /\
  flight_mode (front_object (ratio 3 8)) = vtol_mode.TRANSITION_TO_FW /\
  virtual_setpoints_stale (front_call 5000000) = false /\
  roll_body a = roll_body (fw_virtual_att_sp (front_call 5000000)).
Proof.
  cbv zeta.
  pose proof (front_transition_att_sp front_params (front_call 5000000)
                (front_object (ratio 3 8)) (idle_base_frame B32.ops)
                eq_refl eq_refl) as H.
  cbv zeta in H.
  split; [exact (idle_base_frame B32.ops)|].
  split; [reflexivity|]. split; [reflexivity|].
  exact (proj1 H).
Defined.

Lemma back_transition_att_sp_witness :
  let a := v_att_sp (update_transition_state front_params (back_call 5000000)
                       back_object) in
  base_transition_frame /\
  flight_mode back_object = vtol_mode.TRANSITION_TO_MC /\
  virtual_setpoints_stale (back_call 5000000) = false /\
  flag_control_climb_rate_enabled (back_call 5000000) = true /\
  pitch_body a = update_and_get_backtransition_pitch_sp (back_call 5000000).
Proof.
  cbv zeta.
  pose proof (back_transition_att_sp front_params (back_call 5000000)
                back_object (idle_base_frame B32.ops) eq_refl eq_refl) as H.
  cbv zeta in H.
  split; [exact (idle_base_frame B32.ops)|].
  split; [reflexivity|]. split; [reflexivity|]. split; [reflexivity|].
  exact (proj1 (proj1 (proj2 H) eq_refl)).
Defined.

(** One and a half seconds into a back transition with
    VT_B_TRANS_RAMP = 3 s: the weights are at one half. *)
Lemma back_weight_ramp_witness :
  base_transition_frame /\
  flight_mode back_object = vtol_mode.TRANSITION_TO_MC /\
  virtual_setpoints_stale (back_call 1500000) = false /\
  mc_roll_weight (update_transition_state front_params (back_call 1500000)
                    back_object) = ratio 1 2.
Proof.
  pose proof (back_weight_ramp front_params (back_call 1500000) back_object
                (idle_base_frame B32.ops) eq_refl eq_refl) as H.
  cbv zeta in H.
  split; [exact (idle_base_frame B32.ops)|].
  split; [reflexivity|]. split; [reflexivity|].
  rewrite (proj1 H). vm_compute. reflexivity.
Defined.

(** Half a second after the start of the clock, with setpoints stamped by
    the call itself. *)
Lemma first_second_always_stale_witness :
  0 <= hrt_absolute_time (front_call 500000) < one_second /\
  0 <= sp_timestamp (fw_virtual_att_sp (front_call 500000))
    <= hrt_absolute_time (front_call 500000) /\
  update_transition_state front_params (front_call 500000)
    (flight_object vtol_mode.TRANSITION_TO_FW 400000 f1 f0 false)
  = flight_object vtol_mode.TRANSITION_TO_FW 400000 f1 f0 false.
Proof.
  assert (A : 0 <= hrt_absolute_time (front_call 500000) < one_second)
    by (vm_compute; split; [discriminate|reflexivity]).
  assert (B : 0 <= sp_timestamp (fw_virtual_att_sp (front_call 500000))
              <= hrt_absolute_time (front_call 500000))
    by (vm_compute; split; discriminate).
  split; [exact A|]. split; [exact B|].
  exact (first_second_always_stale front_params (front_call 500000)
           (flight_object vtol_mode.TRANSITION_TO_FW 400000 f1 f0 false) A B).
Defined.

(** A call at 5 s with both virtual setpoints stamped at 4 s, exactly one
    second old: the pusher ramp runs. *)
Lemma freshness_boundary_witness :
  let I := flight_inputs 5000000 true false (of_Z 5) 4000000 in
  one_second <= hrt_absolute_time I < 2 ^ 64 /\
  hrt_absolute_time I - one_second <= sp_timestamp (mc_virtual_att_sp I) /\
  hrt_absolute_time I - one_second <= sp_timestamp (fw_virtual_att_sp I) /\
  pusher_throttle (update_transition_state front_params I
                     (flight_object vtol_mode.TRANSITION_TO_FW 4000000 f1 f0 false))
  = ratio 3 8.
Proof.
  cbv zeta.
  assert (A : one_second
              <= hrt_absolute_time (flight_inputs 5000000 true false (of_Z 5) 4000000)
              < 2 ^ 64)
    by (vm_compute; split; [discriminate|reflexivity]).
  assert (B : hrt_absolute_time (flight_inputs 5000000 true false (of_Z 5) 4000000)
              - one_second
              <= sp_timestamp (mc_virtual_att_sp
                                 (flight_inputs 5000000 true false (of_Z 5) 4000000)))
    by (vm_compute; discriminate).
  pose proof (freshness_boundary front_params
                (flight_inputs 5000000 true false (of_Z 5) 4000000)
                (flight_object vtol_mode.TRANSITION_TO_FW 4000000 f1 f0 false) A)
    as H.
  split; [exact A|]. split; [exact B|]. split; [exact B|].
  rewrite (proj1 H B B). vm_compute. reflexivity.
Defined.

(** VT_B_TRANS_RAMP = 10 s above VT_B_TRANS_DUR = 8 s is brought down to
    8 s. *)
Lemma parameters_update_clamps_witness :
  flt (vt_b_trans_ramp long_ramp_params) (vt_b_trans_dur long_ramp_params) = false /\
  vt_b_trans_ramp (parameters_update long_ramp_params) = of_Z 8.
Proof.
  pose proof (parameters_update_clamps (ORD := B32_order_laws) long_ramp_params)
    as H.
  cbv zeta in H.
  assert (A : flt (vt_b_trans_ramp long_ramp_params)
                  (vt_b_trans_dur long_ramp_params) = false)
    by (vm_compute; reflexivity).
  split; [exact A|].
  rewrite (proj1 (proj2 H) A). reflexivity.
Defined.

End Binary32Behaviour.

(* ================================================================== *)
(** * Rounding and signs in binary32                                    *)
(* ================================================================== *)

Lemma B32_digits_shift (m : positive) :
  Z.pos (digits2_pos (Pos.iter xO m 23)) = Z.pos (digits2_pos m) + 23.
Proof. cbn. lia. Qed.

(** One times a value that a binary32 variable can hold is that value:
    the product of the mantissas is the mantissa shifted by 23 bits, and
    the rounding shifts it back without loss. *)
Lemma B32_mul_one (y : spec_float) :
  B32.valid y = true ->
  SFmul B32.prec B32.emax (S754_finite false 8388608 (-23)) y = y.
Proof.
  unfold B32.valid, B32.prec, B32.emax.
  destruct y as [s|s| |s m e]; cbn [valid_binary]; intros Hv; try reflexivity.
  unfold SFmul. cbn [xorb].
  unfold bounded, canonical_mantissa in Hv.
  apply andb_true_iff in Hv. destruct Hv as [Hc Hb].
  apply Z.eqb_eq in Hc.
  change (8388608 * m)%positive with (Pos.iter xO m 23).
  unfold binary_round_aux, shr_fexp.
  cbn [Zdigits2]. rewrite B32_digits_shift.
  replace (fexp 24 128 (Z.pos (digits2_pos m) + 23 + (-23 + e)) - (-23 + e))
    with 23.
  2:{ replace (Z.pos (digits2_pos m) + 23 + (-23 + e))
        with (Z.pos (digits2_pos m) + e) by lia.
      rewrite Hc. lia. }
  cbn [shr shr_record_of_loc].
  change (iter_pos shr_1 23
            {| shr_m := Z.pos (Pos.iter xO m 23); shr_r := false; shr_s := false |})
    with {| shr_m := Z.pos m; shr_r := false; shr_s := false |}.
  cbn [shr_m loc_of_shr_record round_nearest_even Zdigits2].
  replace (-23 + e + 23) with e by lia.
  rewrite Hc, Z.sub_diag. cbn [shr shr_m].
  rewrite Hb. reflexivity.
Qed.


(** Rounding keeps the sign it is given. *)
Lemma B32_round_not_neg (m e : Z) (l : location) :
  SFltb (binary_round_aux B32.prec B32.emax false m e l) (S754_zero false) = false.
Proof.
  unfold binary_round_aux.
  destruct (shr_fexp B32.prec B32.emax m e l) as [mrs' e'].
  destruct (shr_fexp B32.prec B32.emax _ e' loc_Exact) as [mrs'' e''].
  destruct (shr_m mrs''); try reflexivity.
  destruct (e'' <=? B32.emax - B32.prec); reflexivity.
Qed.

Lemma B32_mul_not_neg (a b : spec_float) :
  SFltb a (S754_zero false) = false -> SFltb b (S754_zero false) = false ->
  SFltb (SFmul B32.prec B32.emax a b) (S754_zero false) = false.
Proof.
  destruct a as [sa|sa| |sa ma ea], b as [sb|sb| |sb mb eb];
    try destruct sa; try destruct sb; cbn; try congruence; intros _ _;
    try reflexivity.
  apply B32_round_not_neg.
Qed.

Lemma B32_div_not_neg (a b : spec_float) :
  SFltb a (S754_zero false) = false -> SFleb b (S754_zero false) = false ->
  SFltb (SFdiv B32.prec B32.emax a b) (S754_zero false) = false.
Proof.
  destruct a as [sa|sa| |sa ma ea], b as [sb|sb| |sb mb eb];
    try destruct sa; try destruct sb; cbn; try congruence; intros _ _;
    try reflexivity.
  destruct (SFdiv_core_binary B32.prec B32.emax (Z.pos ma) ea (Z.pos mb) eb)
    as [[mz ez] lz].
  apply B32_round_not_neg.
Qed.

Lemma B32_of_Z_not_neg (z : Z) :
  0 <= z ->
  SFltb (binary_normalize B32.prec B32.emax z 0 false) (S754_zero false) = false.
Proof.
  destruct z as [|p|p]; intros Hz; try reflexivity; [|lia].
  unfold binary_normalize, binary_round.
  destruct (shl_align _ _ _) as [mz ez]. apply B32_round_not_neg.
Qed.

Lemma B32_eqb_refl (x : spec_float) :
  B32.is_finite x = true -> SFeqb x x = true.
Proof.
  unfold SFeqb.
  destruct x as [s|s| |s m e]; cbn; try destruct s; cbn; try congruence;
    intros _; rewrite Z.compare_refl, Pos.compare_cont_spec, Pos.compare_refl;
    reflexivity.
Qed.

(* ================================================================== *)
(** * The ramps and the throttle blend, in binary32                     *)
(* ================================================================== *)

Section Binary32Ramps.

#[local] Existing Instance B32.ops.

Context {LIB : Px4Lib B32.ops} {BASE : VtolTypeBase B32.ops LIB}.

(** The time since the start of the transition is not negative. *)
Lemma B32_time_not_neg (I : Inputs) (s : Standard) :
  flt (time_since_trans_start I s) f0 = false.
Proof.
  unfold time_since_trans_start.
  apply B32_mul_not_neg.
  - apply B32_of_Z_not_neg. apply Z.mod_pos_bound. reflexivity.
  - vm_compute. reflexivity.
Qed.


(** X22.  The pusher throttle never becomes negative: if it is not below
    0 before a call and the two targets VT_F_TRANS_THR and VT_B_TRANS_THR
    are not below 0, it is not below 0 after the scheduler and not below 0
    after the transition controller, in every flight mode, with fresh or
    stale setpoints and for every ramp time. *)
Theorem pusher_never_negative (P : Params) (I I' : Inputs) (s : Standard) :
  base_transition_frame ->
  flt (pusher_throttle s) f0 = false ->
  flt (vt_f_trans_thr P) f0 = false ->
  flt (vt_b_trans_thr P) f0 = false ->
  flt (pusher_throttle (update_vtol_state P I s)) f0 = false /\
  flt (pusher_throttle (update_transition_state P I' s)) f0 = false.
Proof.
  intros Hframe Hp Hf Hb. split.
  - revert Hp. unfold update_vtol_state.
    destruct s as [m ts wr wp wy wt pt ro fs tf vm bm sp fl spo qc dv]; cbn.
    destruct fs, (is_fixed_wing_requested I), m; cbn;
      try destruct (transition_to_fw P I _); cbn;
      try destruct (can_transition_on_ground I
                    || exit_backtransition_speed_condition P I || _); cbn;
      intros Hp; exact Hp || reflexivity.
  - destruct (virtual_setpoints_stale I') eqn:Hstale.
    + unfold update_transition_state. rewrite synthesise_stale by assumption.
      destruct (Hframe I' s) as (_ & _ & _ & _ & _ & _ & -> & _). exact Hp.
    + destruct (update_transition_state_fresh P I' s Hframe Hstale)
        as (s1 & -> & Fm & Fp & _).
      destruct (transition_schedules_keep P I' (time_since_trans_start I' s) s1)
        as [-> _].
      destruct (flight_mode s1) eqn:Hm1.
      * cbn [fst]. rewrite Fp. exact Hp.
      * destruct (front_transition_fields P I' (time_since_trans_start I' s) s1)
          as (-> & _).
        rewrite Fp.
        destruct (fle (vt_psher_rmp_dt P) f0) eqn:Er; [exact Hf|].
        destruct (fle (pusher_throttle s) (vt_f_trans_thr P)); [|exact Hp].
        apply B32_div_not_neg; [|exact Er].
        apply B32_mul_not_neg; [exact Hf|apply B32_time_not_neg].
      * rewrite back_transition_pusher. unfold reverse_ramp_value.
        destruct (fge _ (vt_b_rev_del P)); [|reflexivity].
        apply B32_mul_not_neg; [|exact Hb].
        apply (constrain_unit_bounds (ORD := B32_order_laws)).
      * cbn [fst]. rewrite Fp. exact Hp.
Qed.

(** X23.  The throttle blend after the front transition at its two ends,
    for finite throttles that binary32 variables can hold: at scale 0 the
    X thrust of the attitude setpoint becomes the pusher throttle, and at
    scale 1 it stays the throttle it held.  (The two sides are equal as
    numbers; a zero may change its sign.) *)
Theorem blend_throttle_ends (s : Standard) :
  B32.valid (pusher_throttle s) = true ->
  PX4_ISFINITE (pusher_throttle s) = true ->
  B32.valid (v0 (thrust_body (v_att_sp s))) = true ->
  PX4_ISFINITE (v0 (thrust_body (v_att_sp s))) = true ->
  B32.same_number
    (v0 (thrust_body (v_att_sp (blendThrottleAfterFrontTransition f0 s))))
    (pusher_throttle s) = true /\
  B32.same_number
    (v0 (thrust_body (v_att_sp (blendThrottleAfterFrontTransition f1 s))))
    (v0 (thrust_body (v_att_sp s))) = true.
Proof.
  unfold B32.same_number, blendThrottleAfterFrontTransition.
  destruct s as [m ts wr wp wy wt pt ro fs tf vm bm sp fl spo qc dv].
  destruct sp as [st r p y q [a t1 t2]].
  cbn [pusher_throttle v_att_sp thrust_body v0 set_v_att_sp set_thrust_body
       PX4_ISFINITE fmul fadd fsub B32.ops].
  intros Hvb Hfb Hva Hfa.
  change (@f0 B32.ops) with (S754_zero false).
  change (@f1 B32.ops) with (S754_finite false 8388608 (-23)).
  change (SFsub B32.prec B32.emax (S754_finite false 8388608 (-23))
            (S754_zero false))
    with (S754_finite false 8388608 (-23)).
  change (SFsub B32.prec B32.emax (S754_finite false 8388608 (-23))
            (S754_finite false 8388608 (-23)))
    with (S754_zero false).
  rewrite (B32_mul_one pt Hvb), (B32_mul_one a Hva).
  split.
  - destruct a as [sa|sa| |sa ma ea]; try discriminate Hfa;
      destruct pt as [sb|sb| |sb mb eb]; try discriminate Hfb;
      try (destruct sa; destruct sb; reflexivity);
      try (destruct sb; reflexivity);
      cbn [SFmul SFadd xorb]; apply B32_eqb_refl; reflexivity.
  - destruct a as [sa|sa| |sa ma ea]; try discriminate Hfa;
      destruct pt as [sb|sb| |sb mb eb]; try discriminate Hfb;
      try (destruct sa; destruct sb; reflexivity);
      try (destruct sa; reflexivity);
      cbn [SFmul SFadd xorb]; apply B32_eqb_refl; reflexivity.
Qed.

End Binary32Ramps.

(* ================================================================== *)
(** * Concrete runs of the ramps, in binary32                           *)
(* ================================================================== *)

Section Binary32RampRuns.

#[local] Existing Instance B32.ops.
#[local] Existing Instance StdLib.
#[local] Existing Instance IdleBase.



(** Five seconds into a front transition with the pusher throttle at
    0.375. *)
Lemma pusher_never_negative_witness :
  let s := front_object (ratio 3 8) in
  let I := front_call 5000000 in
  base_transition_frame /\
  flt (pusher_throttle s) f0 = false /\
  flt (vt_f_trans_thr front_params) f0 = false /\
  flt (vt_b_trans_thr front_params) f0 = false /\
  flt (pusher_throttle (update_vtol_state front_params I s)) f0 = false /\
  flt (pusher_throttle (update_transition_state front_params I s)) f0 = false.
Proof.
  cbv zeta.
  split; [exact (idle_base_frame B32.ops)|].
  split; [reflexivity|]. split; [reflexivity|]. split; [reflexivity|].
  exact (pusher_never_negative front_params (front_call 5000000)
           (front_call 5000000) (front_object (ratio 3 8))
           (idle_base_frame B32.ops) eq_refl eq_refl eq_refl).
Defined.

(** A blend at scale 0 with the pusher throttle at 0.75 and the X thrust
    at 0. *)
Lemma blend_throttle_ends_witness :
  let s := front_object (ratio 3 4) in
  B32.valid (pusher_throttle s) = true /\
  PX4_ISFINITE (pusher_throttle s) = true /\
  B32.valid (v0 (thrust_body (v_att_sp s))) = true /\
  PX4_ISFINITE (v0 (thrust_body (v_att_sp s))) = true /\
  B32.same_number
    (v0 (thrust_body (v_att_sp (blendThrottleAfterFrontTransition f0 s))))
    (ratio 3 4) = true.
Proof.
  cbv zeta.
  split; [reflexivity|]. split; [reflexivity|]. split; [reflexivity|].
  split; [reflexivity|].
  exact (proj1 (blend_throttle_ends (front_object (ratio 3 4))
                  eq_refl eq_refl eq_refl eq_refl)).
Defined.

End Binary32RampRuns.
